(** * The Locust load-test script [scripts/locustfile.py], embedded in Rocq

    The script defines virtual-user classes for the Locust runtime.  Each
    task method draws a few random values, hands one HTTP call to the
    user's client and classifies the response; [TaskAPIUser] and
    [AdminUser] additionally record the identifiers of the tasks they
    created in the class attribute [task_ids].

    The embedding follows the script method by method.  What the script
    cannot control is taken from two oracles: the raw random draws and the
    replies of the HTTP client.  What the script does to the outside is
    written to a trace: the calls handed to the client, the explicit
    [response.success()] / [response.failure(..)] marks and the printed
    lines.

    A request made with [catch_response=True] is recorded by the runtime
    as the block marked it; a request counts here as recorded a success
    (a failure) when the trace holds that mark.  A method is run from its
    first statement to its return or to the exception that leaves it; the
    scheduling of several users by the runtime is not part of the
    embedding, but the list object they share is. *)

From Stdlib Require Import ZArith String Ascii List Lia Bool.
From stdpp Require Import base option list strings gmap.

Local Open Scope string_scope.
Local Open Scope Z_scope.

(** ** Python values as the script sees them *)

(** The values [response.json()] can produce.  JSON numbers with a
    fractional part decode to Python floats, which are not represented;
    [PInt] covers the integer ones.  A dict is given by its items; the
    first item with a given key is the one that counts. *)
#[local] Set Warnings "-register-all".
Inductive pyval : Type :=
| PNone
| PBool (b : bool)
| PInt (n : Z)
| PStr (s : string)
| PList (l : list pyval)
| PDict (d : list (string * pyval)).

(** [d.get(k)] on the items of a dict. *)
Fixpoint dict_lookup {V : Type} (d : list (string * V)) (k : string) : option V :=
  match d with
  | [] => None
  | (k', v) :: r => if String.eqb k' k then Some v else dict_lookup r k
  end.

Definition has_key {V : Type} (d : list (string * V)) (k : string) : bool :=
  existsb (String.eqb k) (map fst d).

(** Python's [bool(v)], as used by [if task_id:] and [if not self.task_ids:]. *)
Definition truthy (v : pyval) : bool :=
  match v with
  | PNone => false
  | PBool b => b
  | PInt n => negb (n =? 0)
  | PStr s => negb (String.eqb s "")
  | PList l => match l with [] => false | _ => true end
  | PDict d => match d with [] => false | _ => true end
  end.

(** Python's [==] on these values: [True == 1], lists compare element by
    element, dicts compare as maps (the order of the items is irrelevant,
    an item shadowed by an earlier one with the same key is ignored). *)
Section container_equality.
Context {V : Type} (eqv : V -> V -> bool).

Fixpoint list_eqb_by (l l' : list V) {struct l} : bool :=
  match l, l' with
  | [], [] => true
  | x :: r, y :: r' => eqv x y && list_eqb_by r r'
  | _, _ => false
  end.

(** Every item of [d] whose key was not met before has an equal value
    in [d']. *)
Fixpoint items_eqb_by (d' d : list (string * V)) (seen : list string)
         {struct d} : bool :=
  match d with
  | [] => true
  | (k, v) :: r =>
      (if existsb (String.eqb k) seen then true
       else match dict_lookup d' k with
            | Some v' => eqv v v'
            | None => false
            end)
      && items_eqb_by d' r (k :: seen)
  end.
End container_equality.

Fixpoint py_eqb (a b : pyval) {struct a} : bool :=
  match a, b with
  | PNone, PNone => true
  | PBool x, PBool y => Bool.eqb x y
  | PBool x, PInt n => Z.b2z x =? n
  | PInt n, PBool y => n =? Z.b2z y
  | PInt m, PInt n => m =? n
  | PStr s, PStr t => String.eqb s t
  | PList l, PList l' => list_eqb_by py_eqb l l'
  | PDict d, PDict d' =>
      items_eqb_by py_eqb d' d [] && forallb (has_key d) (map fst d')
  | _, _ => false
  end.

(** [x in l] and [l.remove(x)] on a Python list: both compare each item
    of the list with [x], item on the left. *)
Definition py_in (x : pyval) (l : list pyval) : bool :=
  existsb (fun y => py_eqb y x) l.

Fixpoint py_remove (x : pyval) (l : list pyval) : option (list pyval) :=
  match l with
  | [] => None
  | y :: r => if py_eqb y x then Some r
              else match py_remove x r with
                   | Some r' => Some (y :: r')
                   | None => None
                   end
  end.

(** Number of elements of [l] that are [==] to [x] ([l.count(x)]). *)
Definition py_count (x : pyval) (l : list pyval) : nat :=
  length (List.filter (fun y => py_eqb y x) l).

(** ** Exceptions, f-strings, requests and replies *)

(** The exceptions that can occur in the modelled methods.  All of them are
    subclasses of Python's [Exception]; signals outside that class
    ([KeyboardInterrupt], [SystemExit], [GreenletExit]) are not modelled. *)
Inductive Exn : Type :=
| JSONDecodeError               (* response.json() on a body that is not JSON *)
| AttributeError (attr : string) (* x.get on a value that is not a dict *)
| IndexError                    (* random.choice([]) *)
| ValueError                    (* list.remove(x) with x not in the list *)
| ClientError (msg : string).   (* an Exception raised by the client call itself *)

(** An f-string before rendering: literal text and formatted values. *)
Inductive fpart : Type :=
| Lit (s : string)
| Fmt (v : pyval)
| FmtExn (e : Exn).

Definition fstring : Type := list fpart.

Inductive Method : Type := GET | POST | PUT | DELETE.

(** One call on [self.client]: the verb, the path, and the keyword
    arguments [params=], [json=], [name=] and [catch_response=]. *)
Record Request : Type := mkRequest {
  method : Method;
  url : fstring;
  params : option (gmap string pyval);
  json : option (list (string * fstring));
  name : option string;
  catch_response : bool
}.

(** What the script reads from a response.  [body] is the value of
    [response.json()], or [None] when the body does not decode as JSON. *)
Record Response : Type := mkResponse {
  status_code : Z;
  body : option pyval;
  text : string
}.

(** The outcome of a client call: a response, or an [Exception]. *)
Inductive Reply : Type :=
| Responds (r : Response)
| Throws (msg : string).

(** The four user classes of the script. *)
Inductive UserClass : Type :=
| TaskAPIUser
| DatabaseStressUser
| ReadOnlyUser
| AdminUser.

#[export] Instance UserClass_eq_dec : EqDecision UserClass.
Proof. solve_decision. Defined.

(** A running virtual user: an instance of one of the classes. *)
Record User : Type := mkUser { uid : nat; cls : UserClass }.

(** What the script does to the outside world, in order. *)
Inductive Event : Type :=
| Sent (self : nat) (req : Request)        (* a call handed to self.client *)
| MarkSuccess (self : nat)                  (* response.success() *)
| MarkFailure (self : nat) (msg : fstring)  (* response.failure(msg) *)
| Printed (msg : fstring).                  (* print(msg) *)

(** ** The store and the oracles *)

(** [task_ids = []] is written in the class body of [TaskAPIUser] and of
    [AdminUser], and no method ever assigns [self.task_ids]: every
    [self.task_ids] therefore denotes the one list object of the class,
    which all instances of that class mutate in place.  The store holds
    one list per class, not one per user. *)
Record World : Type := mkWorld {
  TaskAPIUser_task_ids : list pyval;
  AdminUser_task_ids : list pyval;
  rng_pos : nat;            (* random draws consumed so far *)
  net_pos : nat;            (* client calls made so far *)
  trace : list Event
}.

Record Env : Type := mkEnv {
  draws : nat -> nat;       (* the raw output of the random generator *)
  replies : nat -> Reply    (* the outcome of the n-th client call *)
}.

Definition initial_world : World := mkWorld [] [] 0 0 [].

(** [u.task_ids] by attribute lookup; the other two classes have no such
    attribute. *)
Definition task_ids (w : World) (u : User) : option (list pyval) :=
  match cls u with
  | TaskAPIUser => Some (TaskAPIUser_task_ids w)
  | AdminUser => Some (AdminUser_task_ids w)
  | DatabaseStressUser | ReadOnlyUser => None
  end.

(** ** A state-and-exception monad for method bodies *)

Inductive Res (A : Type) : Type :=
| Ret (a : A)
| Raise (e : Exn).
Arguments Ret {A} a.
Arguments Raise {A} e.

Definition M (A : Type) : Type := Env -> World -> Res A * World.

#[export] Instance M_ret : MRet M := fun A a _ w => (Ret a, w).
#[export] Instance M_bind : MBind M := fun A B f c env w =>
  match c env w with
  | (Ret a, w') => f a env w'
  | (Raise e, w') => (Raise e, w')
  end.

Definition raise {A : Type} (e : Exn) : M A := fun _ w => (Raise e, w).

(** [try: c  except Exception as e: h e] *)
Definition try_except {A : Type} (c : M A) (h : Exn -> M A) : M A := fun env w =>
  match c env w with
  | (Ret a, w') => (Ret a, w')
  | (Raise e, w') => h e env w'
  end.

(** The elementary changes of the store. *)
Definition log_event (ev : Event) (w : World) : World :=
  mkWorld (TaskAPIUser_task_ids w) (AdminUser_task_ids w)
          (rng_pos w) (net_pos w) (trace w ++ [ev]).

Definition next_draw (w : World) : World :=
  mkWorld (TaskAPIUser_task_ids w) (AdminUser_task_ids w)
          (S (rng_pos w)) (net_pos w) (trace w).

Definition next_call (w : World) : World :=
  mkWorld (TaskAPIUser_task_ids w) (AdminUser_task_ids w)
          (rng_pos w) (S (net_pos w)) (trace w).

Definition store_TaskAPIUser_ids (l : list pyval) (w : World) : World :=
  mkWorld l (AdminUser_task_ids w) (rng_pos w) (net_pos w) (trace w).

Definition store_AdminUser_ids (l : list pyval) (w : World) : World :=
  mkWorld (TaskAPIUser_task_ids w) l (rng_pos w) (net_pos w) (trace w).

Definition emit (ev : Event) : M unit := fun _ w => (Ret tt, log_event ev w).

Definition draw : M nat := fun env w =>
  (Ret (draws env (rng_pos w)), next_draw w).

(** A call on [self.client]: the call is made, then its outcome is known. *)
Definition send (self : nat) (req : Request) : M Response := fun env w =>
  let w' := log_event (Sent self req) (next_call w) in
  match replies env (net_pos w) with
  | Responds r => (Ret r, w')
  | Throws msg => (Raise (ClientError msg), w')
  end.

Definition get_ids (c : UserClass) : M (list pyval) := fun _ w =>
  match c with
  | TaskAPIUser => (Ret (TaskAPIUser_task_ids w), w)
  | AdminUser => (Ret (AdminUser_task_ids w), w)
  | _ => (Raise (AttributeError "task_ids"), w)
  end.

Definition set_ids (c : UserClass) (l : list pyval) : M unit := fun _ w =>
  match c with
  | TaskAPIUser => (Ret tt, store_TaskAPIUser_ids l w)
  | AdminUser => (Ret tt, store_AdminUser_ids l w)
  | _ => (Raise (AttributeError "task_ids"), w)
  end.

(** ** Library calls used by the script *)

(** [random.randint(a, b)]: some integer of [a..b], fixed by the raw draw. *)
Definition randint (a b : Z) : M Z :=
  r ← draw; mret (a + Z.of_nat r mod (b - a + 1)).

(** [random.choice(seq)]: some element of [seq]; [IndexError] when empty. *)
Definition choice {A : Type} (l : list A) : M A :=
  match l with
  | [] => raise IndexError
  | _ => r ← draw;
         match l !! (r mod length l)%nat with
         | Some x => mret x
         | None => raise IndexError
         end
  end.

Definition hex_digit (n : nat) : ascii :=
  match list_ascii_of_string "0123456789abcdef" !! (n mod 16)%nat with
  | Some c => c
  | None => "0"%char
  end.

Fixpoint hex_digits (k : nat) (r : nat) : string :=
  match k with
  | O => EmptyString
  | S k' => String (hex_digit r) (hex_digits k' (r / 16)%nat)
  end.

(** [uuid.uuid4().hex[:k]] for [k <= 8]: [k] random hexadecimal digits. *)
Definition uuid4_hex_prefix (k : nat) : M string :=
  r ← draw; mret (hex_digits k r).

(** [response.json()] *)
Definition response_json (r : Response) : M pyval :=
  match body r with
  | Some v => mret v
  | None => raise JSONDecodeError
  end.

(** [v.get(k, default)]: only dicts have [get]. *)
Definition py_get (v : pyval) (k : string) (default : pyval) : M pyval :=
  match v with
  | PDict d => mret (match dict_lookup d k with Some x => x | None => default end)
  | _ => raise (AttributeError "get")
  end.

(** [self.task_ids.append(x)] and [self.task_ids.remove(x)]: in place, on
    the list object of the class. *)
Definition ids_append (c : UserClass) (x : pyval) : M unit :=
  l ← get_ids c; set_ids c (l ++ [x]).

Definition ids_remove (c : UserClass) (x : pyval) : M unit :=
  l ← get_ids c;
  match py_remove x l with
  | Some l' => set_ids c l'
  | None => raise ValueError
  end.

(** The two attributes of [self.client] the script assigns. *)
Record Client : Type := mkClient {
  verify : bool;
  timeout : option Z
}.

(** [for i in range(k): body i], counting from [i]; an exception that
    leaves the body ends the loop. *)
Fixpoint for_range (i : Z) (k : nat) (body : Z -> M unit) : M unit :=
  match k with
  | O => mret tt
  | S k' => _ ← body i; for_range (i + 1) k' body
  end.

(** ** class TaskAPIUser(HttpUser) *)

Module TaskAPIUser.

(** [f"/deleteTask/{task_id}"] with its [name=] label. *)
Definition cleanup_request (task_id : pyval) : Request :=
  mkRequest DELETE [Lit "/deleteTask/"; Fmt task_id] None None
            (Some "/deleteTask/[id]") false.

(** The body of the loop of [on_stop]: one delete call inside
    [try ... except Exception as e: print(..)]. *)
Definition cleanup_one (self : nat) (task_id : pyval) : M unit :=
  try_except
    (_ ← send self (cleanup_request task_id); mret tt)
    (fun e => emit (Printed [Lit "Failed to cleanup task "; Fmt task_id;
                             Lit ": "; FmtExn e])).

(** [for task_id in self.task_ids: ...].  A Python list iterator holds an
    index into the live list: each round reads the element at the index,
    or stops when the index is past the end.  [fuel] bounds the number of
    rounds; [None] means the fuel ran out. *)
Fixpoint on_stop_from (fuel : nat) (self : nat) (i : nat)
         (env : Env) (w : World) : option (Res unit * World) :=
  match fuel with
  | O => None
  | S fuel' =>
      match TaskAPIUser_task_ids w !! i with
      | None => Some (Ret tt, w)
      | Some task_id =>
          match cleanup_one self task_id env w with
          | (Ret _, w') => on_stop_from fuel' self (S i) env w'
          | (Raise e, w') => Some (Raise e, w')
          end
      end
  end.

Definition on_stop (fuel : nat) (self : nat) (env : Env) (w : World)
  : option (Res unit * World) :=
  on_stop_from fuel self 0 env w.

(** [list_tasks]: the call, and the body of its [with] block. *)
Definition list_request (params : gmap string pyval) : Request :=
  mkRequest GET [Lit "/listTasks"] (Some params) None (Some "/listTasks") true.

Definition list_tasks_with (self : nat) (response : Response) : M pyval :=
  if status_code response =? 200 then
    data ← response_json response;
    _ ← emit (MarkSuccess self);
    mret data
  else
    _ ← emit (MarkFailure self [Lit "Failed with status ";
                                Fmt (PInt (status_code response))]);
    mret PNone.

Definition list_tasks (self : nat) : M pyval :=
  page ← randint 1 5;
  limit ← choice [5; 10; 20];
  status ← choice [""; "pending"; "in_progress"; "completed"];
  let params : gmap string pyval :=
    <["status" := PStr status]>
      (<["limit" := PInt limit]> (<["page" := PInt page]> ∅)) in
  (* if not params["status"]: del params["status"] *)
  let params :=
    match params !! "status" with
    | Some s => if truthy s then params else delete "status" params
    | None => params
    end in
  response ← send self (list_request params);
  list_tasks_with self response.

(** [create_task] *)
Definition create_request (h : string) (n : Z) (priority : string) : Request :=
  let task_data :=
    [("title", [Lit "Load Test Task "; Fmt (PStr h)]);
     ("description",
      [Lit "This is a test task created by Locust stress testing at ";
       Fmt (PInt n)]);
     ("priority", [Fmt (PStr priority)])] in
  mkRequest POST [Lit "/addTask"] None (Some task_data) (Some "/addTask") true.

Definition create_task_with (self : nat) (response : Response) : M pyval :=
  if status_code response =? 201 then
    data ← response_json response;
    task ← py_get data "task" (PDict []);
    task_id ← py_get task "id" PNone;
    _ ← (if truthy task_id then ids_append TaskAPIUser task_id else mret tt);
    _ ← emit (MarkSuccess self);
    mret data
  else
    _ ← emit (MarkFailure self [Lit "Failed to create task: ";
                                Fmt (PInt (status_code response));
                                Lit " - "; Fmt (PStr (text response))]);
    mret PNone.

Definition create_task (self : nat) : M pyval :=
  h ← uuid4_hex_prefix 8;
  n ← randint 1000 9999;
  priority ← choice ["low"; "medium"; "high"];
  response ← send self (create_request h n priority);
  create_task_with self response.

(** [update_task] *)
Definition update_request (task_id : pyval) (h status priority : string) : Request :=
  let update_data :=
    [("title", [Lit "Updated Task "; Fmt (PStr h)]);
     ("description", [Lit "Updated by Locust load test"]);
     ("status", [Fmt (PStr status)]);
     ("priority", [Fmt (PStr priority)])] in
  mkRequest PUT [Lit "/updateTask/"; Fmt task_id] None (Some update_data)
            (Some "/updateTask/[id]") true.

Definition update_task_with (self : nat) (task_id : pyval) (response : Response)
  : M pyval :=
  if status_code response =? 200 then
    _ ← emit (MarkSuccess self);
    mret PNone
  else if status_code response =? 404 then
    (* Task might have been deleted, remove from our list *)
    ids ← get_ids TaskAPIUser;
    _ ← (if py_in task_id ids then ids_remove TaskAPIUser task_id else mret tt);
    _ ← emit (MarkSuccess self);
    mret PNone
  else
    _ ← emit (MarkFailure self [Lit "Failed to update task: ";
                                Fmt (PInt (status_code response))]);
    mret PNone.

Definition update_task (self : nat) : M pyval :=
  ids ← get_ids TaskAPIUser;
  if negb (truthy (PList ids)) then mret PNone
  else
    task_id ← choice ids;
    h ← uuid4_hex_prefix 6;
    status ← choice ["pending"; "in_progress"; "completed"];
    priority ← choice ["low"; "medium"; "high"];
    response ← send self (update_request task_id h status priority);
    update_task_with self task_id response.

(** [delete_task] *)
Definition delete_request (task_id : pyval) : Request :=
  mkRequest DELETE [Lit "/deleteTask/"; Fmt task_id] None None
            (Some "/deleteTask/[id]") true.

Definition delete_task_with (self : nat) (task_id : pyval) (response : Response)
  : M pyval :=
  if status_code response =? 200 then
    ids ← get_ids TaskAPIUser;
    _ ← (if py_in task_id ids then ids_remove TaskAPIUser task_id else mret tt);
    _ ← emit (MarkSuccess self);
    mret PNone
  else if status_code response =? 404 then
    (* Task already deleted, remove from our list *)
    ids ← get_ids TaskAPIUser;
    _ ← (if py_in task_id ids then ids_remove TaskAPIUser task_id else mret tt);
    _ ← emit (MarkSuccess self);
    mret PNone
  else
    _ ← emit (MarkFailure self [Lit "Failed to delete task: ";
                                Fmt (PInt (status_code response))]);
    mret PNone.

Definition delete_task (self : nat) : M pyval :=
  ids ← get_ids TaskAPIUser;
  if negb (truthy (PList ids)) then mret PNone
  else
    task_id ← choice ids;
    response ← send self (delete_request task_id);
    delete_task_with self task_id response.

(** [on_start]: the two assignments on the client, then the health probe.
    The first component is the client after the assignments, the second
    the rest of the method.  The block makes no mark. *)
Definition health_probe_request : Request :=
  mkRequest GET [Lit "/health"] None None None true.

Definition on_start (self : nat) (client : Client) : Client * M unit :=
  (mkClient false (Some 10),
   response ← send self health_probe_request;
   if status_code response =? 200 then
     emit (Printed [Lit "‚úÖ API health check passed"])
   else
     emit (Printed [Lit "‚ùå API health check failed: ";
                    Fmt (PInt (status_code response))])).

(** [health_check] *)
Definition health_request : Request :=
  mkRequest GET [Lit "/health"] None None (Some "/health") true.

Definition health_check (self : nat) : M pyval :=
  response ← send self health_request;
  if status_code response =? 200 then
    _ ← emit (MarkSuccess self);
    mret PNone
  else
    _ ← emit (MarkFailure self [Lit "Health check failed: ";
                                Fmt (PInt (status_code response))]);
    mret PNone.

(** [metrics_endpoint] *)
Definition metrics_request : Request :=
  mkRequest GET [Lit "/metrics"] None None (Some "/metrics") true.

Definition metrics_endpoint (self : nat) : M pyval :=
  response ← send self metrics_request;
  if status_code response =? 200 then
    _ ← emit (MarkSuccess self);
    mret PNone
  else
    _ ← emit (MarkFailure self [Lit "Metrics endpoint failed: ";
                                Fmt (PInt (status_code response))]);
    mret PNone.

End TaskAPIUser.

(** ** class AdminUser(HttpUser) *)

Module AdminUser.

Definition admin_create_request (h : string) : Request :=
  let task_data :=
    [("title", [Lit "Admin Task "; Fmt (PStr h)]);
     ("description", [Lit "Administrative task creation"]);
     ("priority", [Lit "high"])] in
  mkRequest POST [Lit "/addTask"] None (Some task_data) (Some "/addTask-admin") false.

(** The statements after the call; there is no [with] block here and no
    explicit success or failure mark. *)
Definition admin_create_task_with (response : Response) : M pyval :=
  if status_code response =? 201 then
    data ← response_json response;
    task ← py_get data "task" (PDict []);
    task_id ← py_get task "id" PNone;
    _ ← (if truthy task_id then ids_append AdminUser task_id else mret tt);
    mret PNone
  else mret PNone.

Definition admin_create_task (self : nat) : M pyval :=
  h ← uuid4_hex_prefix 8;
  response ← send self (admin_create_request h);
  admin_create_task_with response.

(** [admin_bulk_operations]: five pages of fifty, one after the other. *)
Definition bulk_request (i : Z) : Request :=
  mkRequest GET [Lit "/listTasks"]
            (Some (<["limit" := PInt 50]> (<["page" := PInt (i + 1)]> ∅)))
            None (Some "/listTasks-bulk") false.

Definition admin_bulk_operations (self : nat) : M pyval :=
  _ ← for_range 0 5 (fun i => _ ← send self (bulk_request i); mret tt);
  mret PNone.

End AdminUser.

(** ** class DatabaseStressUser(HttpUser) *)

Module DatabaseStressUser.

Definition intensive_request (page limit : Z) : Request :=
  mkRequest GET [Lit "/listTasks"]
            (Some (<["limit" := PInt limit]> (<["page" := PInt page]> ∅)))
            None (Some "/listTasks-intensive") false.

Definition intensive_round (self : nat) : M unit :=
  page ← randint 1 10;
  limit ← choice [20; 50; 100];
  _ ← send self (intensive_request page limit);
  mret tt.

Definition intensive_list_operations (self : nat) : M pyval :=
  n ← randint 3 7;
  _ ← for_range 0 (Z.to_nat n) (fun _ => intensive_round self);
  mret PNone.

Definition batch_request (i : Z) (h priority : string) : Request :=
  let task_data :=
    [("title", [Lit "Batch Task "; Fmt (PInt i); Lit "-"; Fmt (PStr h)]);
     ("description", [Lit "Batch creation test task #"; Fmt (PInt i)]);
     ("priority", [Fmt (PStr priority)])] in
  mkRequest POST [Lit "/addTask"] None (Some task_data) (Some "/addTask-batch") false.

Definition batch_round (self : nat) (i : Z) : M unit :=
  h ← uuid4_hex_prefix 6;
  priority ← choice ["low"; "medium"; "high"];
  _ ← send self (batch_request i h priority);
  mret tt.

Definition batch_create_operations (self : nat) : M pyval :=
  n ← randint 5 10;
  _ ← for_range 0 (Z.to_nat n) (batch_round self);
  mret PNone.

End DatabaseStressUser.

(** ** class ReadOnlyUser(HttpUser) *)

Module ReadOnlyUser.

Definition browse_request (page : Z) : Request :=
  mkRequest GET [Lit "/listTasks"]
            (Some (<["limit" := PInt 10]> (<["page" := PInt page]> ∅)))
            None (Some "/listTasks-readonly") false.

Definition browse_tasks (self : nat) : M pyval :=
  page ← randint 1 3;
  _ ← send self (browse_request page);
  mret PNone.

Definition check_health_request : Request :=
  mkRequest GET [Lit "/health"] None None (Some "/health-readonly") false.

Definition check_health (self : nat) : M pyval :=
  _ ← send self check_health_request;
  mret PNone.

End ReadOnlyUser.

(** ** Event listeners *)

(** [on_test_start(environment)].  [host] and [target_user_count] are the
    two values read from [environment]; [probe] is the outcome of the one
    [requests.get] the listener makes itself, outside any user's
    client. *)
Definition on_test_start (host target_user_count : pyval) (probe : Reply) : M unit :=
  _ ← emit (Printed [Lit "üöÄ Starting Task API Load Test"]);
  _ ← emit (Printed [Lit "Target: "; Fmt host]);
  _ ← emit (Printed [Lit "Users: "; Fmt target_user_count]);
  try_except
    (response ← (match probe with
                 | Responds r => mret r
                 | Throws msg => raise (ClientError msg)
                 end);
     if status_code response =? 200 then
       emit (Printed [Lit "‚úÖ Initial connectivity test passed"])
     else
       emit (Printed [Lit "‚ö†Ô∏è Initial connectivity test returned: ";
                      Fmt (PInt (status_code response))]))
    (fun e => emit (Printed [Lit "‚ùå Initial connectivity test failed: "; FmtExn e])).

(** [on_request_failure(request_type, name, ..., exception)] *)
Definition on_request_failure (request_type name : string) (exception : Exn) : M unit :=
  emit (Printed [Lit "‚ùå Request failed: "; Fmt (PStr request_type);
                 Lit " "; Fmt (PStr name); Lit " - "; FmtExn exception]).

(** ** The tasks of a [TaskAPIUser], run one after the other *)

(** The six methods decorated with [@task] in [TaskAPIUser], with the
    weight each decorator gives. *)
Inductive TaskName : Type :=
| task_list_tasks
| task_create_task
| task_update_task
| task_delete_task
| task_health_check
| task_metrics_endpoint.

Definition task_weight (t : TaskName) : nat :=
  match t with
  | task_list_tasks => 10
  | task_create_task => 5
  | task_update_task => 3
  | task_delete_task => 2
  | task_health_check => 1
  | task_metrics_endpoint => 1
  end.

Definition run_task (self : nat) (t : TaskName) : M pyval :=
  match t with
  | task_list_tasks => TaskAPIUser.list_tasks self
  | task_create_task => TaskAPIUser.create_task self
  | task_update_task => TaskAPIUser.update_task self
  | task_delete_task => TaskAPIUser.delete_task self
  | task_health_check => TaskAPIUser.health_check self
  | task_metrics_endpoint => TaskAPIUser.metrics_endpoint self
  end.

(** A schedule: which user runs which task, in order.  The value a task
    returns is dropped, and so is an exception that leaves it: the user
    goes on with its next task.  (Were the user stopped instead, what ran
    would be a shorter schedule.) *)
Fixpoint run_tasks (schedule : list (nat * TaskName)) (env : Env) (w : World) : World :=
  match schedule with
  | [] => w
  | (self, t) :: rest => run_tasks rest env (snd (run_task self t env w))
  end.

(** ** Stopping a user *)

(** The runtime stops a user by calling its [on_stop] method.  Only
    [TaskAPIUser] defines one; the other three classes inherit the hook of
    the framework's base class, whose body is empty. *)
Definition stop_user (fuel : nat) (u : User) (env : Env) (w : World)
  : option (Res unit * World) :=
  match cls u with
  | TaskAPIUser => TaskAPIUser.on_stop fuel (uid u) env w
  | DatabaseStressUser | ReadOnlyUser | AdminUser => Some (Ret tt, w)
  end.

(** ** The [__main__] block: configuration from the environment *)

(** [os.getenv(key, default)] on the process environment. *)
Definition getenv (environ : gmap string string) (key default : string) : string :=
  match environ !! key with
  | Some v => v
  | None => default
  end.

(** White space as C's [isspace] has it: tab to carriage return, and
    the blank.  This is what [int] strips at both ends. *)
Definition is_space (c : ascii) : bool :=
  let n := nat_of_ascii c in
  ((9 <=? n) && (n <=? 13) || (n =? 32))%nat.

Definition digit_of (c : ascii) : option Z :=
  let n := nat_of_ascii c in
  if ((48 <=? n) && (n <=? 57))%nat then Some (Z.of_nat (n - 48)) else None.

(** Decimal digits, with single underscores allowed between digits. *)
Fixpoint parse_digits (l : list ascii) (acc : Z) (after_digit : bool) : option Z :=
  match l with
  | [] => if after_digit then Some acc else None
  | c :: r =>
      if Ascii.eqb c "_"
      then (if after_digit then parse_digits r acc false else None)
      else match digit_of c with
           | Some d => parse_digits r (10 * acc + d) true
           | None => None
           end
  end.

Fixpoint lstrip (l : list ascii) : list ascii :=
  match l with
  | c :: r => if is_space c then lstrip r else l
  | [] => []
  end.

Definition strip (l : list ascii) : list ascii := rev (lstrip (rev (lstrip l))).

(** The value of an environment variable is the UTF-8 decoding of its
    bytes.  A continuation byte carries six bits. *)
Definition continuation (b : ascii) : option N :=
  let n := N_of_ascii b in
  if ((128 <=? n) && (n <? 192))%N then Some (n - 128)%N else None.

(** The code points of a byte string; [None] when the bytes are not
    well-formed UTF-8 (overlong forms, surrogates and values above
    U+10FFFF included).  [os.getenv] turns each such byte into a lone
    surrogate, which [int] rejects like any other character that is no
    digit. *)
Fixpoint utf8_decode (l : list ascii) : option (list N) :=
  match l with
  | [] => Some []
  | b0 :: r =>
      let n0 := N_of_ascii b0 in
      if (n0 <? 128)%N then cons n0 <$> utf8_decode r
      else if (n0 <? 224)%N then
        match r with
        | b1 :: r1 =>
            match continuation b1 with
            | Some x1 =>
                let cp := ((n0 - 192) * 64 + x1)%N in
                if (128 <=? cp)%N then cons cp <$> utf8_decode r1 else None
            | None => None
            end
        | _ => None
        end
      else if (n0 <? 240)%N then
        match r with
        | b1 :: b2 :: r2 =>
            match continuation b1, continuation b2 with
            | Some x1, Some x2 =>
                let cp := ((n0 - 224) * 4096 + x1 * 64 + x2)%N in
                if ((2048 <=? cp) && negb ((55296 <=? cp) && (cp <=? 57343)))%N
                then cons cp <$> utf8_decode r2 else None
            | _, _ => None
            end
        | _ => None
        end
      else
        match r with
        | b1 :: b2 :: b3 :: r3 =>
            match continuation b1, continuation b2, continuation b3 with
            | Some x1, Some x2, Some x3 =>
                let cp := ((n0 - 240) * 262144 + x1 * 4096 + x2 * 64 + x3)%N in
                if ((65536 <=? cp) && (cp <=? 1114111))%N
                then cons cp <$> utf8_decode r3 else None
            | _, _, _ => None
            end
        | _ => None
        end
  end.

(** The characters above U+007E that [str.isspace] accepts. *)
Definition unicode_space (cp : N) : bool :=
  ((cp =? 133) || (cp =? 160) || (cp =? 5760)
   || (8192 <=? cp) && (cp <=? 8202)
   || (cp =? 8232) || (cp =? 8233) || (cp =? 8239) || (cp =? 8287)
   || (cp =? 12288))%N.

(** The decimal digits above U+007E (Unicode 14.0, the tables of
    CPython 3.11): the first code point of each run and the length of
    the run; the digit at [first + k] has the value [k mod 10]. *)
Definition decimal_runs : list (N * N) :=
  [(1632, 10); (1776, 10); (1984, 10); (2406, 10); (2534, 10); (2662, 10);
   (2790, 10); (2918, 10); (3046, 10); (3174, 10); (3302, 10); (3430, 10);
   (3558, 10); (3664, 10); (3792, 10); (3872, 10); (4160, 10); (4240, 10);
   (6112, 10); (6160, 10); (6470, 10); (6608, 10); (6784, 10); (6800, 10);
   (6992, 10); (7088, 10); (7232, 10); (7248, 10); (42528, 10);
   (43216, 10); (43264, 10); (43472, 10); (43504, 10); (43600, 10);
   (44016, 10); (65296, 10); (66720, 10); (68912, 10); (69734, 10);
   (69872, 10); (69942, 10); (70096, 10); (70384, 10); (70736, 10);
   (70864, 10); (71248, 10); (71360, 10); (71472, 10); (71904, 10);
   (72016, 10); (72784, 10); (73040, 10); (73120, 10); (92768, 10);
   (92864, 10); (93008, 10); (120782, 50); (123200, 10); (123632, 10);
   (125264, 10); (130032, 10)]%N.

Fixpoint decimal_in (runs : list (N * N)) (cp : N) : option N :=
  match runs with
  | [] => None
  | (first, len) :: rest =>
      if ((first <=? cp) && (cp <? first + len))%N
      then Some ((cp - first) mod 10)%N
      else decimal_in rest cp
  end.

(** What [int] makes of one character before parsing: a character below
    U+007F stays, a space becomes a blank, a decimal digit its ASCII
    digit; any other character makes the literal invalid ([None]). *)
Definition ascii_form (cp : N) : option ascii :=
  if (cp <? 127)%N then Some (ascii_of_N cp)
  else if unicode_space cp then Some " "%char
  else match decimal_in decimal_runs cp with
       | Some d => Some (ascii_of_N (48 + d))
       | None => None
       end.

Fixpoint ascii_forms (cps : list N) : option (list ascii) :=
  match cps with
  | [] => Some []
  | cp :: rest =>
      match ascii_form cp, ascii_forms rest with
      | Some c, Some cs => Some (c :: cs)
      | _, _ => None
      end
  end.

Definition count_digits (l : list ascii) : nat :=
  length (List.filter
            (fun c => match digit_of c with Some _ => true | None => false end) l).

(** [int(s)] on the value [s] of an environment variable, with the
    defaults of CPython 3.11: optional surrounding white space, an
    optional sign, decimal digits of any script with single underscores
    between them, at most 4300 digits.  [None] is [ValueError]. *)
Definition py_int (s : string) : option Z :=
  match utf8_decode (list_ascii_of_string s) with
  | None => None
  | Some cps =>
      match ascii_forms cps with
      | None => None
      | Some l =>
          match strip l with
          | c :: r =>
              let signed := Ascii.eqb c "-" || Ascii.eqb c "+" in
              let digits := if signed then r else c :: r in
              if (4300 <? count_digits digits)%nat then None
              else if Ascii.eqb c "-" then Z.opp <$> parse_digits digits 0 false
              else parse_digits digits 0 false
          | [] => None
          end
      end
  end.

(** [s.lower()] on ASCII letters.  No character outside ASCII has a
    lower-case form that contains a letter of "true", so the comparison
    [s.lower() == "true"] of [config] is decided by the ASCII letters. *)
Definition lower_ascii (c : ascii) : ascii :=
  let n := nat_of_ascii c in
  if ((65 <=? n) && (n <=? 90))%nat then ascii_of_nat (n + 32) else c.

Fixpoint lower (s : string) : string :=
  match s with
  | EmptyString => EmptyString
  | String c r => String (lower_ascii c) (lower r)
  end.

Record Config : Type := mkConfig {
  host : string;
  users : Z;
  spawn_rate : Z;
  run_time : string;
  headless : bool
}.

(** The dict literal [config = {...}]; its entries are evaluated in order,
    and an [int(..)] that fails raises [ValueError]. *)
Definition config (environ : gmap string string) : Res Config :=
  let host := getenv environ "LOCUST_HOST" "http://localhost:3000" in
  match py_int (getenv environ "LOCUST_USERS" "10") with
  | None => Raise ValueError
  | Some users =>
      match py_int (getenv environ "LOCUST_SPAWN_RATE" "2") with
      | None => Raise ValueError
      | Some spawn_rate =>
          let run_time := getenv environ "LOCUST_RUN_TIME" "5m" in
          let headless :=
            String.eqb (lower (getenv environ "LOCUST_HEADLESS" "false")) "true" in
          Ret (mkConfig host users spawn_rate run_time headless)
      end
  end.

(** ** Vocabulary for the statements *)

(** [data.get("task", {})] when it is a dict: the member [task] of a JSON
    object, the empty dict when the object has no such member.  [None]
    when [data] is not an object or its member [task] is not one. *)
Definition task_of (data : pyval) : option (list (string * pyval)) :=
  match data with
  | PDict d =>
      match dict_lookup d "task" with
      | None => Some []
      | Some (PDict t) => Some t
      | Some _ => None
      end
  | _ => None
  end.

(** [task.get("id")]: the member [id], Python's [None] when absent. *)
Definition id_of (t : list (string * pyval)) : pyval :=
  match dict_lookup t "id" with
  | Some v => v
  | None => PNone
  end.

(** The identifier a create response hands out: the truthy value at
    [task.id] of a JSON object body. *)
Definition returned_id (r : Response) : option pyval :=
  match body r with
  | Some data =>
      match task_of data with
      | Some t => if truthy (id_of t) then Some (id_of t) else None
      | None => None
      end
  | None => None
  end.

(** The client calls of a trace, with the user that made each. *)
Fixpoint calls_of (t : list Event) : list (nat * Request) :=
  match t with
  | [] => []
  | Sent self req :: r => (self, req) :: calls_of r
  | _ :: r => calls_of r
  end.

(** The printed lines of a trace. *)
Fixpoint printed_of (t : list Event) : list fstring :=
  match t with
  | [] => []
  | Printed msg :: r => msg :: printed_of r
  | _ :: r => printed_of r
  end.

(** The success and failure marks of a trace. *)
Fixpoint marks_of (t : list Event) : list Event :=
  match t with
  | [] => []
  | MarkSuccess self :: r => MarkSuccess self :: marks_of r
  | MarkFailure self msg :: r => MarkFailure self msg :: marks_of r
  | _ :: r => marks_of r
  end.

(** What one round of the cleanup loop prints, given the outcome of its
    delete call. *)
Definition cleanup_report (task_id : pyval) (outcome : Reply) : list Event :=
  match outcome with
  | Responds _ => []
  | Throws msg => [Printed [Lit "Failed to cleanup task "; Fmt task_id;
                            Lit ": "; FmtExn (ClientError msg)]]
  end.

(** The events of a cleanup pass over [ids] whose first call is the
    [n]-th call of the run. *)
Fixpoint cleanup_events (self : nat) (env : Env) (n : nat) (ids : list pyval)
  : list Event :=
  match ids with
  | [] => []
  | task_id :: r =>
      Sent self (TaskAPIUser.cleanup_request task_id)
        :: cleanup_report task_id (replies env n)
        ++ cleanup_events self env (S n) r
  end.

(** An environment given by finitely many draws and replies; later draws
    are 0 and later calls fail to connect. *)
Definition scripted (ds : list nat) (rs : list Reply) : Env :=
  mkEnv (fun n => nth n ds O) (fun n => nth n rs (Throws "connection refused")).

Definition ok_response (status : Z) (v : pyval) : Reply :=
  Responds (mkResponse status (Some v) "").

(** The store once a method has consumed [k] draws and made the call
    [req], before the response is looked at. *)
Definition after_call (k : nat) (self : nat) (req : Request) (w : World) : World :=
  mkWorld (TaskAPIUser_task_ids w) (AdminUser_task_ids w)
          (k + rng_pos w) (S (net_pos w)) (trace w ++ [Sent self req]).

(** A 201 reply whose body is [{"task": {"id": v}}]. *)
Definition created (v : pyval) : Reply :=
  ok_response 201 (PDict [("task", PDict [("id", v)])]).

(** The lines a cleanup pass prints: one for each identifier whose delete
    call raised, in order. *)
Fixpoint cleanup_failures (env : Env) (n : nat) (ids : list pyval) : list fstring :=
  match ids with
  | [] => []
  | task_id :: r =>
      match replies env n with
      | Responds _ => cleanup_failures env (S n) r
      | Throws msg =>
          [Lit "Failed to cleanup task "; Fmt task_id; Lit ": ";
           FmtExn (ClientError msg)] :: cleanup_failures env (S n) r
      end
  end.

(** ** Vocabulary for what a method leaves alone *)

(** Both tracked lists are the same in [w] and [w']. *)
Definition same_ids (w w' : World) : Prop :=
  TaskAPIUser_task_ids w' = TaskAPIUser_task_ids w
  /\ AdminUser_task_ids w' = AdminUser_task_ids w.

(** [c] keeps the relation [P] between the store it starts from and the
    store it ends in, whether it returns or raises. *)
Definition keeps {A : Type} (P : World -> World -> Prop) (c : M A) : Prop :=
  forall env w, P w (snd (c env w)).

(** From [w] to [w'] user [self] made the calls [cs], in order, and
    nothing else happened: no mark, no printed line, no change of a
    tracked list. *)
Definition only_calls (self : nat) (cs : list Request) (w w' : World) : Prop :=
  trace w' = (trace w ++ map (Sent self) cs)%list
  /\ net_pos w' = (net_pos w + length cs)%nat
  /\ same_ids w w'.

(** Every call from the [n]-th on is answered by a response. *)
Definition responds_from (env : Env) (n : nat) : Prop :=
  forall m, (n <= m)%nat -> exists r, replies env m = Responds r.

(** One round of a loop: exactly one call, which satisfies [ok], and a
    normal end when that call is answered. *)
Definition one_call_round (self : nat) (ok : Request -> Prop) (c : M unit) : Prop :=
  forall env w,
    exists req,
      ok req
      /\ only_calls self [req] w (snd (c env w))
      /\ ((exists r, replies env (net_pos w) = Responds r) -> fst (c env w) = Ret tt).



(** No identifier enters the list of [TaskAPIUser] between [w] and [w'];
    the list of [AdminUser] is the same and calls are only added. *)
Definition no_new_ids (w w' : World) : Prop :=
  AdminUser_task_ids w' = AdminUser_task_ids w
  /\ (net_pos w <= net_pos w')%nat
  /\ (length (TaskAPIUser_task_ids w') <= length (TaskAPIUser_task_ids w))%nat
  /\ forall x, In x (TaskAPIUser_task_ids w') -> In x (TaskAPIUser_task_ids w).

(** Every identifier tracked in [w'] was tracked in [w] or is the
    identifier of a 201 response to a call made in between; the list of
    [AdminUser] is the same. *)
Definition ids_from_replies (env : Env) (w w' : World) : Prop :=
  AdminUser_task_ids w' = AdminUser_task_ids w
  /\ (net_pos w <= net_pos w')%nat
  /\ forall x, In x (TaskAPIUser_task_ids w') ->
       In x (TaskAPIUser_task_ids w)
       \/ exists n r, (net_pos w <= n < net_pos w')%nat
                      /\ replies env n = Responds r
                      /\ status_code r = 201
                      /\ returned_id r = Some x.

(** An ASCII letter, A to Z or a to z. *)
Definition is_ascii_letter (c : ascii) : bool :=
  let n := nat_of_ascii c in
  ((65 <=? n) && (n <=? 90) || (97 <=? n) && (n <=? 122))%nat.

(** The sixteen spellings of "true" in upper and lower case. *)
Definition spells_true (s : string) : bool :=
  match s with
  | String a (String b (String c (String d EmptyString))) =>
      (Ascii.eqb a "t" || Ascii.eqb a "T")
      && (Ascii.eqb b "r" || Ascii.eqb b "R")
      && (Ascii.eqb c "u" || Ascii.eqb c "U")
      && (Ascii.eqb d "e" || Ascii.eqb d "E")
  | _ => false
  end.

(** ** Induction on Python values, through lists and dicts *)

Section pyval_induction.
Variable P : pyval -> Prop.
Hypothesis HNone : P PNone.
Hypothesis HBool : forall b, P (PBool b).
Hypothesis HInt : forall n, P (PInt n).
Hypothesis HStr : forall s, P (PStr s).
Hypothesis HList : forall l, Forall P l -> P (PList l).
Hypothesis HDict : forall d, Forall (fun kv => P (snd kv)) d -> P (PDict d).

Fixpoint pyval_nested_ind (v : pyval) : P v :=
  match v with
  | PNone => HNone
  | PBool b => HBool b
  | PInt n => HInt n
  | PStr s => HStr s
  | PList l =>
      HList l ((fix all (l : list pyval) : Forall P l :=
                  match l with
                  | [] => @List.Forall_nil _ P
                  | x :: r => @List.Forall_cons _ P x r (pyval_nested_ind x) (all r)
                  end) l)
  | PDict d =>
      HDict d ((fix all (d : list (string * pyval))
                  : Forall (fun kv => P (snd kv)) d :=
                  match d with
                  | [] => @List.Forall_nil _ (fun kv => P (snd kv))
                  | kv :: r =>
                      @List.Forall_cons _ (fun kv => P (snd kv)) kv r
                        (pyval_nested_ind (snd kv)) (all r)
                  end) d)
  end.
End pyval_induction.

(** * Properties *)

(** ** Auxiliary facts about Python values *)

Lemma list_eqb_by_refl (l : list pyval) :
  Forall (fun x => py_eqb x x = true) l -> list_eqb_by py_eqb l l = true.
Proof.
  induction 1 as [|x r Hx _ IH]; simpl; [reflexivity|].
  rewrite Hx, IH. reflexivity.
Qed.

Lemma dict_lookup_app_fresh {V : Type} (pre d : list (string * V)) (k : string) :
  has_key pre k = false -> dict_lookup (pre ++ d) k = dict_lookup d k.
Proof.
  unfold has_key. induction pre as [|[k' v'] pre IH]; simpl; [reflexivity|].
  intros H. apply orb_false_iff in H as [Hk Hpre].
  rewrite String.eqb_sym, Hk. apply IH, Hpre.
Qed.

Lemma items_eqb_by_refl (pre rest : list (string * pyval)) (seen : list string) :
  (forall k, existsb (String.eqb k) seen = has_key pre k) ->
  Forall (fun kv => py_eqb (snd kv) (snd kv) = true) rest ->
  items_eqb_by py_eqb (pre ++ rest) rest seen = true.
Proof.
  intros Hseen Hall. revert pre seen Hseen.
  induction Hall as [|[k v] r Hv _ IH]; intros pre seen Hseen; simpl;
    [reflexivity|].
  replace (pre ++ (k, v) :: r)%list with ((pre ++ [(k, v)]) ++ r)%list
    by (rewrite <- app_assoc; reflexivity).
  rewrite (IH (pre ++ [(k, v)])%list (k :: seen)).
  - rewrite andb_true_r.
    destruct (existsb (String.eqb k) seen) eqn:Hk; [reflexivity|].
    rewrite <- app_assoc. simpl.
    rewrite dict_lookup_app_fresh by (rewrite <- Hseen; exact Hk).
    simpl. rewrite String.eqb_refl. exact Hv.
  - intros k'. simpl. unfold has_key in *.
    rewrite map_app, existsb_app, <- Hseen. simpl.
    rewrite orb_false_r, orb_comm. reflexivity.
Qed.

Lemma has_key_all {V : Type} (d : list (string * V)) :
  forallb (has_key d) (map fst d) = true.
Proof.
  apply forallb_forall. intros k Hk. unfold has_key.
  apply existsb_exists. exists k. split; [exact Hk | apply String.eqb_refl].
Qed.

(** [x == x] holds for every value. *)
Lemma py_eqb_refl (v : pyval) : py_eqb v v = true.
Proof.
  induction v as [| b | n | s | l IH | d IH] using pyval_nested_ind; simpl.
  - reflexivity.
  - apply Bool.eqb_reflx.
  - apply Z.eqb_refl.
  - apply String.eqb_refl.
  - apply list_eqb_by_refl, IH.
  - rewrite has_key_all, andb_true_r.
    apply (items_eqb_by_refl [] d []); [reflexivity | exact IH].
Qed.

(** [True == 1] and dict equality ignores the order of the items. *)
Example py_eqb_bool_int : py_eqb (PBool true) (PInt 1) = true.
Proof. reflexivity. Qed.

Example py_eqb_dict_order :
  py_eqb (PDict [("a", PInt 1); ("b", PStr "x")])
         (PDict [("b", PStr "x"); ("a", PInt 1)]) = true.
Proof. reflexivity. Qed.

Example py_int_examples :
  py_int "10" = Some 10 /\ py_int " -7 " = Some (-7) /\ py_int "1_000" = Some 1000
  /\ py_int "" = None /\ py_int "5m" = None /\ py_int "1__0" = None.
Proof. repeat split; reflexivity. Qed.

(** ** Stepping through a method body *)

Lemma bind_ret_run {A B : Type} (c : M A) (f : A -> M B) env w a w' :
  c env w = (Ret a, w') -> (x ← c; f x) env w = f a env w'.
Proof. intros H. unfold mbind, M_bind. rewrite H. reflexivity. Qed.

Lemma bind_raise_run {A B : Type} (c : M A) (f : A -> M B) env w e w' :
  c env w = (Raise e, w') -> (x ← c; f x) env w = (Raise e, w').
Proof. intros H. unfold mbind, M_bind. rewrite H. reflexivity. Qed.

(** ** Configuration *)

(** C7.  When none of the five configuration variables is set in the
    environment, the configuration is host "http://localhost:3000",
    users 10, spawn_rate 2, run_time "5m", headless false. *)
Theorem config_defaults (environ : gmap string string) :
  environ !! "LOCUST_HOST" = None ->
  environ !! "LOCUST_USERS" = None ->
  environ !! "LOCUST_SPAWN_RATE" = None ->
  environ !! "LOCUST_RUN_TIME" = None ->
  environ !! "LOCUST_HEADLESS" = None ->
  config environ = Ret (mkConfig "http://localhost:3000" 10 2 "5m" false).
Proof.
  intros Hhost Husers Hrate Htime Hheadless.
  unfold config, getenv.
  rewrite Hhost, Husers, Hrate, Htime, Hheadless.
  reflexivity.
Qed.

Lemma config_defaults_witness :
  config (∅ : gmap string string)
  = Ret (mkConfig "http://localhost:3000" 10 2 "5m" false).
Proof. apply config_defaults; reflexivity. Defined.

(** A variable that is set takes precedence over its default. *)
Example config_override :
  config (<["LOCUST_USERS" := "250"]> (<["LOCUST_HEADLESS" := "TRUE"]> ∅))
  = Ret (mkConfig "http://localhost:3000" 250 2 "5m" true).
Proof. vm_compute. reflexivity. Qed.

(** ** No tracked identifier: nothing happens *)

(** C5.  When the tracked list is empty, [update_task] and [delete_task]
    return at once: the whole store, including the trace (no client call,
    no success or failure mark) and the position of the random generator,
    is what it was. *)
Theorem update_delete_noop_on_empty (self : nat) (env : Env) (w : World) :
  TaskAPIUser_task_ids w = [] ->
  TaskAPIUser.update_task self env w = (Ret PNone, w)
  /\ TaskAPIUser.delete_task self env w = (Ret PNone, w).
Proof.
  intros Hempty. split.
  - unfold TaskAPIUser.update_task.
    rewrite (bind_ret_run _ _ env w (TaskAPIUser_task_ids w) w) by reflexivity.
    rewrite Hempty. reflexivity.
  - unfold TaskAPIUser.delete_task.
    rewrite (bind_ret_run _ _ env w (TaskAPIUser_task_ids w) w) by reflexivity.
    rewrite Hempty. reflexivity.
Qed.

Lemma update_delete_noop_on_empty_witness :
  TaskAPIUser.update_task 0 (scripted [] []) initial_world = (Ret PNone, initial_world)
  /\ TaskAPIUser.delete_task 0 (scripted [] []) initial_world = (Ret PNone, initial_world).
Proof. apply update_delete_noop_on_empty. reflexivity. Defined.

(** ** The cleanup hook *)

Lemma calls_of_app (t t' : list Event) :
  calls_of (t ++ t') = (calls_of t ++ calls_of t')%list.
Proof.
  induction t as [|ev t IH]; simpl; [reflexivity|].
  destruct ev; simpl; rewrite IH; reflexivity.
Qed.

Lemma printed_of_app (t t' : list Event) :
  printed_of (t ++ t') = (printed_of t ++ printed_of t')%list.
Proof.
  induction t as [|ev t IH]; simpl; [reflexivity|].
  destruct ev; simpl; rewrite IH; reflexivity.
Qed.

(** One round of the loop always completes: it makes its call and, when
    the call raised, prints one line.  The lists are not touched. *)
Lemma cleanup_one_run (self : nat) (task_id : pyval) (env : Env) (w : World) :
  TaskAPIUser.cleanup_one self task_id env w
  = (Ret tt,
     mkWorld (TaskAPIUser_task_ids w) (AdminUser_task_ids w)
             (rng_pos w) (S (net_pos w))
             (trace w ++ Sent self (TaskAPIUser.cleanup_request task_id)
                      :: cleanup_report task_id (replies env (net_pos w)))).
Proof.
  unfold TaskAPIUser.cleanup_one, try_except, mbind, M_bind, send.
  destruct (replies env (net_pos w)) as [r|msg]; simpl.
  - reflexivity.
  - unfold emit, log_event. simpl. rewrite <- app_assoc. reflexivity.
Qed.

(** The loop from index [i] on, with fuel for the remaining rounds. *)
Lemma on_stop_from_run (fuel self i : nat) (env : Env) (w : World) :
  (length (TaskAPIUser_task_ids w) - i < fuel)%nat ->
  TaskAPIUser.on_stop_from fuel self i env w
  = Some (Ret tt,
          mkWorld (TaskAPIUser_task_ids w) (AdminUser_task_ids w) (rng_pos w)
                  (net_pos w + (length (TaskAPIUser_task_ids w) - i))
                  (trace w ++ cleanup_events self env (net_pos w)
                                 (drop i (TaskAPIUser_task_ids w)))).
Proof.
  revert i w. induction fuel as [|fuel IH]; intros i w Hfuel; [lia|].
  simpl. destruct (TaskAPIUser_task_ids w !! i) as [task_id|] eqn:Hi.
  - rewrite cleanup_one_run.
    assert (i < length (TaskAPIUser_task_ids w))%nat as Hlt
        by (eapply lookup_lt_Some; exact Hi).
    rewrite IH by (simpl; lia). simpl.
    rewrite (drop_S _ _ _ Hi). simpl.
    rewrite <- app_assoc. simpl.
    do 3 f_equal. lia.
  - apply lookup_ge_None in Hi.
    rewrite drop_ge by exact Hi. simpl.
    replace (length (TaskAPIUser_task_ids w) - i)%nat with O by lia.
    rewrite Nat.add_0_r, app_nil_r. destruct w; reflexivity.
Qed.

Lemma calls_of_cleanup_events (self : nat) (env : Env) (n : nat) (ids : list pyval) :
  calls_of (cleanup_events self env n ids)
  = map (fun task_id => (self, TaskAPIUser.cleanup_request task_id)) ids.
Proof.
  revert n. induction ids as [|task_id r IH]; intros n; simpl; [reflexivity|].
  rewrite calls_of_app, IH.
  destruct (replies env n); reflexivity.
Qed.

Lemma printed_of_cleanup_events (self : nat) (env : Env) (n : nat) (ids : list pyval) :
  printed_of (cleanup_events self env n ids) = cleanup_failures env n ids.
Proof.
  revert n. induction ids as [|task_id r IH]; intros n; simpl; [reflexivity|].
  rewrite printed_of_app, IH.
  destruct (replies env n); reflexivity.
Qed.

(** C6.  Whatever the outcomes of the delete calls (a response of any
    status, or an exception), [on_stop] runs to its normal end, does not
    raise, and has made exactly one delete call per tracked identifier,
    a DELETE on "/deleteTask/<id>" for that identifier, in list order;
    every call that raised was answered by one printed line naming that
    identifier, and by nothing else. *)
Theorem on_stop_attempts_every_id (fuel self : nat) (env : Env) (w : World) :
  (length (TaskAPIUser_task_ids w) < fuel)%nat ->
  exists w' events,
    TaskAPIUser.on_stop fuel self env w = Some (Ret tt, w')
    /\ trace w' = (trace w ++ events)%list
    /\ calls_of events
       = map (fun task_id => (self,
           mkRequest DELETE [Lit "/deleteTask/"; Fmt task_id]
             None None (Some "/deleteTask/[id]") false))
             (TaskAPIUser_task_ids w)
    /\ printed_of events
       = cleanup_failures env (net_pos w) (TaskAPIUser_task_ids w)
    /\ length events
       = (length (calls_of events) + length (printed_of events))%nat.
Proof.
  intros Hfuel. unfold TaskAPIUser.on_stop.
  rewrite on_stop_from_run by lia. rewrite drop_0.
  eexists. exists (cleanup_events self env (net_pos w) (TaskAPIUser_task_ids w)).
  split; [reflexivity|]. split; [reflexivity|].
  split; [apply calls_of_cleanup_events|].
  split; [apply printed_of_cleanup_events|].
  clear Hfuel. generalize (net_pos w).
  induction (TaskAPIUser_task_ids w) as [|t r IH]; intros n; simpl; [reflexivity|].
  rewrite calls_of_app, printed_of_app, !length_app, (IH (S n)).
  destruct (replies env n); simpl; lia.
Qed.

(** ** Primitive steps *)

Lemma choice_run {A : Type} (l : list A) (env : Env) (w : World) :
  l <> [] ->
  exists x, l !! (draws env (rng_pos w) mod length l)%nat = Some x
            /\ choice l env w = (Ret x, next_draw w).
Proof.
  intros Hne.
  assert (draws env (rng_pos w) mod length l < length l)%nat as Hlt.
  { apply Nat.mod_upper_bound. destruct l; [congruence | simpl; lia]. }
  destruct (lookup_lt_is_Some_2 l _ Hlt) as [x Hx].
  exists x. split; [exact Hx|].
  unfold choice. destruct l as [|a l]; [congruence|].
  unfold mbind, M_bind, draw. rewrite Hx. reflexivity.
Qed.

Lemma send_run (self : nat) (req : Request) (env : Env) (w : World) (r : Response) :
  replies env (net_pos w) = Responds r ->
  send self req env w = (Ret r, log_event (Sent self req) (next_call w)).
Proof. intros H. unfold send. rewrite H. reflexivity. Qed.

Lemma send_raise_run (self : nat) (req : Request) (env : Env) (w : World) (msg : string) :
  replies env (net_pos w) = Throws msg ->
  send self req env w
  = (Raise (ClientError msg), log_event (Sent self req) (next_call w)).
Proof. intros H. unfold send. rewrite H. reflexivity. Qed.

Lemma returned_id_inv (r : Response) (tid : pyval) :
  returned_id r = Some tid ->
  exists data t, body r = Some data /\ task_of data = Some t
                 /\ id_of t = tid /\ truthy (id_of t) = true.
Proof.
  unfold returned_id. intros H.
  destruct (body r) as [data|] eqn:Hbody; try discriminate.
  destruct (task_of data) as [t|] eqn:Htask; try discriminate.
  destruct (truthy (id_of t)) eqn:Htruthy; try discriminate.
  injection H as <-. exists data, t. auto.
Qed.

Lemma py_get_task_run (data : pyval) (t : list (string * pyval)) (env : Env) (w : World) :
  task_of data = Some t ->
  py_get data "task" (PDict []) env w = (Ret (PDict t), w).
Proof.
  unfold task_of, py_get. intros H.
  destruct data as [| | | | |d]; try discriminate.
  destruct (dict_lookup d "task") as [[| | | | |t']|]; try discriminate;
    injection H as <-; reflexivity.
Qed.

Lemma py_get_id_run (t : list (string * pyval)) (env : Env) (w : World) :
  py_get (PDict t) "id" PNone env w = (Ret (id_of t), w).
Proof. reflexivity. Qed.

(** ** The random draws and the call of each method *)

Lemma create_task_call (self : nat) (env : Env) (w : World) (r : Response) :
  replies env (net_pos w) = Responds r ->
  exists h n priority,
    TaskAPIUser.create_task self env w
    = TaskAPIUser.create_task_with self r env
        (after_call 3 self (TaskAPIUser.create_request h n priority) w).
Proof.
  intros Hreply. unfold TaskAPIUser.create_task.
  erewrite bind_ret_run by reflexivity.
  erewrite bind_ret_run by reflexivity.
  destruct (choice_run ["low"; "medium"; "high"] env (next_draw (next_draw w))
              ltac:(discriminate)) as (priority & _ & Hc).
  rewrite (bind_ret_run _ _ _ _ _ _ Hc).
  erewrite bind_ret_run by (apply send_run; exact Hreply).
  eexists _, _, priority. reflexivity.
Qed.

Lemma admin_create_task_call (self : nat) (env : Env) (w : World) (r : Response) :
  replies env (net_pos w) = Responds r ->
  exists h,
    AdminUser.admin_create_task self env w
    = AdminUser.admin_create_task_with r env
        (after_call 1 self (AdminUser.admin_create_request h) w).
Proof.
  intros Hreply. unfold AdminUser.admin_create_task.
  erewrite bind_ret_run by reflexivity.
  erewrite bind_ret_run by (apply send_run; exact Hreply).
  eexists. reflexivity.
Qed.

(** ** The [with] block of [create_task] on a 201 response *)

Lemma create_task_with_201 (self : nat) (env : Env) (w : World) (r : Response)
      (data : pyval) (t : list (string * pyval)) :
  status_code r = 201 -> body r = Some data -> task_of data = Some t ->
  TaskAPIUser.create_task_with self r env w
  = (Ret data,
     log_event (MarkSuccess self)
       (if truthy (id_of t)
        then store_TaskAPIUser_ids (TaskAPIUser_task_ids w ++ [id_of t]) w
        else w)).
Proof.
  intros Hstatus Hbody Htask. unfold TaskAPIUser.create_task_with.
  rewrite Hstatus. change (201 =? 201) with true. cbv iota.
  unfold response_json. rewrite Hbody.
  erewrite bind_ret_run by reflexivity.
  erewrite bind_ret_run by (apply py_get_task_run; exact Htask).
  erewrite bind_ret_run by apply py_get_id_run.
  destruct (truthy (id_of t)); reflexivity.
Qed.

Lemma admin_create_task_with_201 (env : Env) (w : World) (r : Response)
      (data : pyval) (t : list (string * pyval)) :
  status_code r = 201 -> body r = Some data -> task_of data = Some t ->
  AdminUser.admin_create_task_with r env w
  = (Ret PNone,
     if truthy (id_of t)
     then store_AdminUser_ids (AdminUser_task_ids w ++ [id_of t]) w
     else w).
Proof.
  intros Hstatus Hbody Htask. unfold AdminUser.admin_create_task_with.
  rewrite Hstatus. change (201 =? 201) with true. cbv iota.
  unfold response_json. rewrite Hbody.
  erewrite bind_ret_run by reflexivity.
  erewrite bind_ret_run by (apply py_get_task_run; exact Htask).
  erewrite bind_ret_run by apply py_get_id_run.
  destruct (truthy (id_of t)); reflexivity.
Qed.

Lemma py_count_app (x : pyval) (l l' : list pyval) :
  py_count x (l ++ l') = (py_count x l + py_count x l')%nat.
Proof. unfold py_count. rewrite List.filter_app, length_app. reflexivity. Qed.

Lemma py_count_snoc_self (x : pyval) (l : list pyval) :
  py_count x (l ++ [x]) = S (py_count x l).
Proof.
  rewrite py_count_app. unfold py_count at 2. simpl.
  rewrite py_eqb_refl. simpl. lia.
Qed.

(** ** Successful creates *)

(** C1, as amended.  After a create answered by 201 with a truthy
    [task.id], the identifier has been appended to the tracked list of the
    user that issued the create, which therefore holds one more
    occurrence of it than before; the tracked list of every user of
    another class is what it was.  This holds for [create_task] of
    [TaskAPIUser], which also marks the request a success, and for
    [admin_create_task] of [AdminUser]. *)
Theorem create_appends_returned_id (self : nat) (env : Env) (w : World)
        (r : Response) (tid : pyval) :
  replies env (net_pos w) = Responds r ->
  status_code r = 201 ->
  returned_id r = Some tid ->
  (exists data w' req,
      TaskAPIUser.create_task self env w = (Ret data, w')
      /\ task_ids w' (mkUser self TaskAPIUser)
         = Some (TaskAPIUser_task_ids w ++ [tid])%list
      /\ py_count tid (TaskAPIUser_task_ids w')
         = S (py_count tid (TaskAPIUser_task_ids w))
      /\ (forall u, cls u <> TaskAPIUser -> task_ids w' u = task_ids w u)
      /\ trace w' = (trace w ++ [Sent self req; MarkSuccess self])%list)
  /\ (exists w' req,
      AdminUser.admin_create_task self env w = (Ret PNone, w')
      /\ task_ids w' (mkUser self AdminUser)
         = Some (AdminUser_task_ids w ++ [tid])%list
      /\ py_count tid (AdminUser_task_ids w')
         = S (py_count tid (AdminUser_task_ids w))
      /\ (forall u, cls u <> AdminUser -> task_ids w' u = task_ids w u)
      /\ trace w' = (trace w ++ [Sent self req])%list).
Proof.
  intros Hreply Hstatus Hid.
  destruct (returned_id_inv r tid Hid) as (data & t & Hbody & Htask & Htid & Htruthy).
  split.
  - destruct (create_task_call self env w r Hreply) as (h & n & priority & ->).
    rewrite (create_task_with_201 self env _ r data t Hstatus Hbody Htask).
    rewrite Htruthy, Htid.
    exists data. eexists. exists (TaskAPIUser.create_request h n priority).
    split; [reflexivity|]. simpl.
    split; [reflexivity|].
    split; [apply py_count_snoc_self|].
    split; [|rewrite <- app_assoc; reflexivity].
    intros [i c] Hc. unfold task_ids. simpl in *.
    destruct c; congruence.
  - destruct (admin_create_task_call self env w r Hreply) as (h & ->).
    rewrite (admin_create_task_with_201 env _ r data t Hstatus Hbody Htask).
    rewrite Htruthy, Htid.
    eexists. exists (AdminUser.admin_create_request h).
    split; [reflexivity|]. simpl.
    split; [reflexivity|].
    split; [apply py_count_snoc_self|].
    split; [|reflexivity].
    intros [i c] Hc. unfold task_ids. simpl in *.
    destruct c; congruence.
Qed.

Lemma create_appends_returned_id_witness :
  returned_id (mkResponse 201 (Some (PDict [("task", PDict [("id", PStr "t1")])])) "")
  = Some (PStr "t1")
  /\ exists w',
      snd (TaskAPIUser.create_task 0 (scripted [] [created (PStr "t1")]) initial_world) = w'
      /\ task_ids w' (mkUser 0 TaskAPIUser) = Some [PStr "t1"].
Proof.
  split; [reflexivity|].
  destruct (create_appends_returned_id 0 (scripted [] [created (PStr "t1")])
              initial_world _ (PStr "t1") eq_refl eq_refl eq_refl)
    as [(data & w' & req & Hrun & Hids & _) _].
  exists w'. rewrite Hrun. split; [reflexivity | exact Hids].
Defined.

(** C1 as stated fails on both counts.  Two [TaskAPIUser]s, user 0 and
    user 1, start with nothing tracked; user 0 creates two tasks and the
    server answers both creates with 201 and the identifier "t1".  After
    the first create the list read through user 1, who created nothing,
    holds "t1" as well; after the second, the list of user 0 holds "t1"
    twice. *)
Lemma create_shared_and_repeated :
  let env := scripted [] [created (PStr "t1"); created (PStr "t1")] in
  let w1 := snd (TaskAPIUser.create_task 0 env initial_world) in
  let w2 := snd (TaskAPIUser.create_task 0 env w1) in
  task_ids w1 (mkUser 0 TaskAPIUser) = Some [PStr "t1"]
  /\ task_ids w1 (mkUser 1 TaskAPIUser) = Some [PStr "t1"]
  /\ task_ids w2 (mkUser 0 TaskAPIUser) = Some [PStr "t1"; PStr "t1"]
  /\ py_count (PStr "t1") (TaskAPIUser_task_ids w2) = 2%nat.
Proof. vm_compute. repeat split. Qed.

(** ** A 201 response without an identifier *)

(** C10, as amended.  When [create_task] is answered by 201 and the body
    is a JSON object whose member [task] is absent, or is an object whose
    member [id] is absent or falsy, the request is marked a success and
    nothing is appended: both tracked lists are what they were. *)
Theorem create_201_without_id (self : nat) (env : Env) (w : World)
        (r : Response) (data : pyval) (t : list (string * pyval)) :
  replies env (net_pos w) = Responds r ->
  status_code r = 201 ->
  body r = Some data ->
  task_of data = Some t ->
  truthy (id_of t) = false ->
  exists w' req,
    TaskAPIUser.create_task self env w = (Ret data, w')
    /\ TaskAPIUser_task_ids w' = TaskAPIUser_task_ids w
    /\ AdminUser_task_ids w' = AdminUser_task_ids w
    /\ trace w' = (trace w ++ [Sent self req; MarkSuccess self])%list.
Proof.
  intros Hreply Hstatus Hbody Htask Hfalsy.
  destruct (create_task_call self env w r Hreply) as (h & n & priority & ->).
  rewrite (create_task_with_201 self env _ r data t Hstatus Hbody Htask).
  rewrite Hfalsy.
  eexists. exists (TaskAPIUser.create_request h n priority).
  split; [reflexivity|]. simpl.
  repeat split. rewrite <- app_assoc. reflexivity.
Qed.

Lemma create_201_without_id_witness :
  task_of (PDict [("task", PDict [("id", PInt 0)])]) = Some [("id", PInt 0)]
  /\ truthy (id_of [("id", PInt 0)]) = false
  /\ exists w' req,
      TaskAPIUser.create_task 0 (scripted [] [created (PInt 0)])
                              (mkWorld [PStr "t1"] [] 0 0 [])
      = (Ret (PDict [("task", PDict [("id", PInt 0)])]), w')
      /\ TaskAPIUser_task_ids w' = [PStr "t1"]
      /\ AdminUser_task_ids w' = []
      /\ trace w' = [Sent 0 req; MarkSuccess 0].
Proof.
  split; [reflexivity|]. split; [reflexivity|].
  apply (create_201_without_id 0 (scripted [] [created (PInt 0)])
           (mkWorld [PStr "t1"] [] 0 0 [])
           (mkResponse 201 (Some (PDict [("task", PDict [("id", PInt 0)])])) "")
           _ [("id", PInt 0)]);
    reflexivity.
Defined.

(** The same holds when the object has no member [task] at all, or an
    empty one. *)
Example create_201_empty_object :
  snd (TaskAPIUser.create_task 0 (scripted [] [ok_response 201 (PDict [])])
                               initial_world)
  = mkWorld [] [] 3 1
            [Sent 0 (TaskAPIUser.create_request "00000000" 1000 "low"); MarkSuccess 0].
Proof. vm_compute. reflexivity. Qed.

(** C10 as stated fails when the body has no truthy [task.id] because
    [task] is not an object: on [{"task": null}] the second [.get] raises
    [AttributeError] before [response.success()] is reached, so the
    trace holds the call and no mark.  The list is unchanged. *)
Lemma create_201_task_null_raises :
  returned_id (mkResponse 201 (Some (PDict [("task", PNone)])) "") = None
  /\ TaskAPIUser.create_task 0 (scripted [] [ok_response 201 (PDict [("task", PNone)])])
                             initial_world
     = (Raise (AttributeError "get"),
        mkWorld [] [] 3 1
                [Sent 0 (TaskAPIUser.create_request "00000000" 1000 "low")]).
Proof. vm_compute. split; reflexivity. Qed.

(** ** Membership, removal and counting on a tracked list *)

Lemma py_in_lookup (l : list pyval) (i : nat) (x : pyval) :
  l !! i = Some x -> py_in x l = true.
Proof.
  intros H. apply list_elem_of_lookup_2, list_elem_of_In in H.
  unfold py_in. apply existsb_exists. exists x. split; [exact H | apply py_eqb_refl].
Qed.

Lemma py_remove_in (x : pyval) (l : list pyval) :
  py_in x l = true <-> exists l', py_remove x l = Some l'.
Proof.
  unfold py_in. induction l as [|y r IH]; simpl.
  - split; [discriminate | intros [l' H]; discriminate].
  - destruct (py_eqb y x); simpl.
    + split; eauto.
    + rewrite IH. split; intros [l' H].
      * rewrite H. eauto.
      * destruct (py_remove x r); [eauto | discriminate].
Qed.

Lemma py_remove_count (x : pyval) (l l' : list pyval) :
  py_remove x l = Some l' -> py_count x l = S (py_count x l').
Proof.
  unfold py_count. revert l'. induction l as [|y r IH]; intros l'; simpl; [discriminate|].
  destruct (py_eqb y x) eqn:Hy.
  - intros [= <-]. reflexivity.
  - destruct (py_remove x r) as [r'|]; [|discriminate].
    intros [= <-]. simpl. rewrite Hy. apply IH. reflexivity.
Qed.

Lemma py_in_count (x : pyval) (l : list pyval) :
  py_in x l = false <-> py_count x l = O.
Proof.
  unfold py_in, py_count. induction l as [|y r IH]; simpl; [tauto|].
  destruct (py_eqb y x); simpl; [split; discriminate | exact IH].
Qed.

(** [remove] takes out the first matching item: what precedes it holds
    no match and is kept, like what follows it. *)
Lemma py_remove_first (x : pyval) (l l' : list pyval) :
  py_remove x l = Some l' ->
  exists pre y post,
    l = (pre ++ y :: post)%list /\ l' = (pre ++ post)%list
    /\ py_eqb y x = true /\ py_in x pre = false.
Proof.
  revert l'. induction l as [|z r IH]; intros l'; simpl; [discriminate|].
  destruct (py_eqb z x) eqn:Hz.
  - intros [= <-]. exists [], z, r. auto.
  - destruct (py_remove x r) as [r'|]; [|discriminate].
    intros [= <-]. destruct (IH r' eq_refl) as (pre & y & post & -> & -> & Hy & Hpre).
    exists (z :: pre), y, post. repeat split; try assumption.
    unfold py_in in *. simpl. rewrite Hz, Hpre. reflexivity.
Qed.

Lemma py_remove_snoc_fresh (x : pyval) (l : list pyval) :
  py_in x l = false -> py_remove x (l ++ [x]) = Some l.
Proof.
  unfold py_in. induction l as [|y r IH]; simpl.
  - rewrite py_eqb_refl. reflexivity.
  - intros H. apply orb_false_iff in H as [Hy Hr].
    rewrite Hy, (IH Hr). reflexivity.
Qed.

(** ** [update_task] and [delete_task]: the draws, the call, the block *)

Lemma delete_task_call (self : nat) (env : Env) (w : World) (r : Response) :
  TaskAPIUser_task_ids w <> [] ->
  replies env (net_pos w) = Responds r ->
  exists task_id,
    TaskAPIUser_task_ids w
      !! (draws env (rng_pos w) mod length (TaskAPIUser_task_ids w))%nat
    = Some task_id
    /\ TaskAPIUser.delete_task self env w
       = TaskAPIUser.delete_task_with self task_id r env
           (after_call 1 self (TaskAPIUser.delete_request task_id) w).
Proof.
  intros Hne Hreply. unfold TaskAPIUser.delete_task.
  rewrite (bind_ret_run _ _ env w (TaskAPIUser_task_ids w) w) by reflexivity.
  destruct (choice_run (TaskAPIUser_task_ids w) env w Hne) as (task_id & Hpick & Hc).
  exists task_id. split; [exact Hpick|].
  destruct (TaskAPIUser_task_ids w) as [|t0 ids] eqn:Hids; [congruence|].
  change (negb (truthy (PList (t0 :: ids)))) with false. cbv iota.
  rewrite (bind_ret_run _ _ _ _ _ _ Hc).
  erewrite bind_ret_run by (apply send_run; exact Hreply).
  unfold after_call, log_event, next_call, next_draw. simpl.
  rewrite Hids. reflexivity.
Qed.

Lemma update_task_call (self : nat) (env : Env) (w : World) (r : Response) :
  TaskAPIUser_task_ids w <> [] ->
  replies env (net_pos w) = Responds r ->
  exists task_id h status priority,
    TaskAPIUser_task_ids w
      !! (draws env (rng_pos w) mod length (TaskAPIUser_task_ids w))%nat
    = Some task_id
    /\ TaskAPIUser.update_task self env w
       = TaskAPIUser.update_task_with self task_id r env
           (after_call 4 self
              (TaskAPIUser.update_request task_id h status priority) w).
Proof.
  intros Hne Hreply. unfold TaskAPIUser.update_task.
  rewrite (bind_ret_run _ _ env w (TaskAPIUser_task_ids w) w) by reflexivity.
  destruct (choice_run (TaskAPIUser_task_ids w) env w Hne) as (task_id & Hpick & Hc).
  exists task_id.
  destruct (TaskAPIUser_task_ids w) as [|t0 ids] eqn:Hids; [congruence|].
  change (negb (truthy (PList (t0 :: ids)))) with false. cbv iota.
  rewrite (bind_ret_run _ _ _ _ _ _ Hc).
  erewrite bind_ret_run by reflexivity.
  destruct (choice_run ["pending"; "in_progress"; "completed"] env
              (next_draw (next_draw w)) ltac:(discriminate)) as (status & _ & Hs).
  rewrite (bind_ret_run _ _ _ _ _ _ Hs).
  destruct (choice_run ["low"; "medium"; "high"] env
              (next_draw (next_draw (next_draw w))) ltac:(discriminate))
    as (priority & _ & Hp).
  rewrite (bind_ret_run _ _ _ _ _ _ Hp).
  erewrite bind_ret_run by (apply send_run; exact Hreply).
  eexists _, status, priority. split; [exact Hpick|].
  unfold after_call, log_event, next_call, next_draw. simpl.
  rewrite Hids. reflexivity.
Qed.

Lemma ids_remove_run (x : pyval) (env : Env) (w : World) (ids' : list pyval) :
  py_remove x (TaskAPIUser_task_ids w) = Some ids' ->
  ids_remove TaskAPIUser x env w = (Ret tt, store_TaskAPIUser_ids ids' w).
Proof.
  intros Hrm. unfold ids_remove.
  rewrite (bind_ret_run _ _ env w (TaskAPIUser_task_ids w) w) by reflexivity.
  rewrite Hrm. reflexivity.
Qed.

(** The pruning branch shared by the two blocks: the first occurrence of
    the identifier goes, and the request is marked a success. *)
Lemma delete_task_with_prunes (self : nat) (task_id : pyval) (r : Response)
      (env : Env) (w : World) (ids' : list pyval) :
  status_code r = 200 \/ status_code r = 404 ->
  py_remove task_id (TaskAPIUser_task_ids w) = Some ids' ->
  TaskAPIUser.delete_task_with self task_id r env w
  = (Ret PNone, log_event (MarkSuccess self) (store_TaskAPIUser_ids ids' w)).
Proof.
  intros Hstatus Hrm.
  assert (py_in task_id (TaskAPIUser_task_ids w) = true) as Hin
      by (apply py_remove_in; eauto).
  unfold TaskAPIUser.delete_task_with.
  destruct Hstatus as [-> | ->]; cbn [Z.eqb Pos.eqb];
    rewrite (bind_ret_run _ _ env w (TaskAPIUser_task_ids w) w) by reflexivity;
    rewrite Hin;
    rewrite (bind_ret_run _ _ _ _ _ _ (ids_remove_run task_id env w ids' Hrm));
    reflexivity.
Qed.

Lemma update_task_with_404 (self : nat) (task_id : pyval) (r : Response)
      (env : Env) (w : World) (ids' : list pyval) :
  status_code r = 404 ->
  py_remove task_id (TaskAPIUser_task_ids w) = Some ids' ->
  TaskAPIUser.update_task_with self task_id r env w
  = (Ret PNone, log_event (MarkSuccess self) (store_TaskAPIUser_ids ids' w)).
Proof.
  intros Hstatus Hrm.
  assert (py_in task_id (TaskAPIUser_task_ids w) = true) as Hin
      by (apply py_remove_in; eauto).
  unfold TaskAPIUser.update_task_with.
  rewrite Hstatus. cbn [Z.eqb Pos.eqb].
  rewrite (bind_ret_run _ _ env w (TaskAPIUser_task_ids w) w) by reflexivity.
  rewrite Hin.
  rewrite (bind_ret_run _ _ _ _ _ _ (ids_remove_run task_id env w ids' Hrm)).
  reflexivity.
Qed.

(** ** Deleting a tracked task *)

(** C4, as amended.  When [delete_task] runs on a non-empty list and the
    response status is 200 or 404, the first item of the list that is
    [==] to the chosen identifier is removed and the request is marked a
    success: the list holds one occurrence of the identifier fewer, and
    the identifier is absent afterwards exactly when it occurred once
    before. *)
Theorem delete_removes_first_occurrence (self : nat) (env : Env) (w : World)
        (r : Response) :
  TaskAPIUser_task_ids w <> [] ->
  replies env (net_pos w) = Responds r ->
  status_code r = 200 \/ status_code r = 404 ->
  exists task_id w',
    TaskAPIUser_task_ids w
      !! (draws env (rng_pos w) mod length (TaskAPIUser_task_ids w))%nat
    = Some task_id
    /\ TaskAPIUser.delete_task self env w = (Ret PNone, w')
    /\ py_remove task_id (TaskAPIUser_task_ids w) = Some (TaskAPIUser_task_ids w')
    /\ py_count task_id (TaskAPIUser_task_ids w)
       = S (py_count task_id (TaskAPIUser_task_ids w'))
    /\ (py_in task_id (TaskAPIUser_task_ids w') = false
        <-> py_count task_id (TaskAPIUser_task_ids w) = 1%nat)
    /\ trace w'
       = (trace w ++ [Sent self (TaskAPIUser.delete_request task_id);
                      MarkSuccess self])%list.
Proof.
  intros Hne Hreply Hstatus.
  destruct (delete_task_call self env w r Hne Hreply) as (task_id & Hpick & ->).
  destruct (proj1 (py_remove_in task_id (TaskAPIUser_task_ids w))
                  (py_in_lookup _ _ _ Hpick)) as [ids' Hrm].
  rewrite (delete_task_with_prunes self task_id r env _ ids' Hstatus)
    by exact Hrm.
  exists task_id. eexists.
  split; [exact Hpick|]. split; [reflexivity|]. simpl.
  pose proof (py_remove_count _ _ _ Hrm) as Hcount.
  split; [exact Hrm|]. split; [exact Hcount|].
  split; [|rewrite <- app_assoc; reflexivity].
  rewrite py_in_count, Hcount. lia.
Qed.

Lemma delete_removes_first_occurrence_witness :
  exists task_id w',
    [PStr "t1"; PStr "t2"] !! (1 mod 2)%nat = Some task_id
    /\ TaskAPIUser.delete_task 0 (scripted [1%nat] [ok_response 404 PNone])
                               (mkWorld [PStr "t1"; PStr "t2"] [] 0 0 [])
       = (Ret PNone, w')
    /\ py_remove task_id [PStr "t1"; PStr "t2"] = Some (TaskAPIUser_task_ids w')
    /\ py_count task_id [PStr "t1"; PStr "t2"]
       = S (py_count task_id (TaskAPIUser_task_ids w'))
    /\ (py_in task_id (TaskAPIUser_task_ids w') = false
        <-> py_count task_id [PStr "t1"; PStr "t2"] = 1%nat)
    /\ trace w'
       = [Sent 0 (TaskAPIUser.delete_request task_id); MarkSuccess 0].
Proof.
  apply (delete_removes_first_occurrence 0 (scripted [1%nat] [ok_response 404 PNone])
           (mkWorld [PStr "t1"; PStr "t2"] [] 0 0 [])
           (mkResponse 404 (Some PNone) "")).
  - discriminate.
  - reflexivity.
  - right. reflexivity.
Defined.

(** C4 as stated fails on a list that holds the chosen identifier more
    than once.  The server answers two creates with the identifier "t1",
    so the list is ["t1"; "t1"]; a delete answered by 200 then removes
    the first "t1" only, and "t1" is still in the list afterwards. *)
Lemma delete_leaves_second_copy :
  let env := scripted [] [created (PStr "t1"); created (PStr "t1");
                          ok_response 200 PNone] in
  let w1 := snd (TaskAPIUser.create_task 0 env initial_world) in
  let w2 := snd (TaskAPIUser.create_task 0 env w1) in
  let w3 := snd (TaskAPIUser.delete_task 0 env w2) in
  TaskAPIUser_task_ids w2 = [PStr "t1"; PStr "t1"]
  /\ fst (TaskAPIUser.delete_task 0 env w2) = Ret PNone
  /\ calls_of (trace w3)
     = [(0%nat, TaskAPIUser.create_request "00000000" 1000 "low");
        (0%nat, TaskAPIUser.create_request "00000000" 1000 "low");
        (0%nat, TaskAPIUser.delete_request (PStr "t1"))]
  /\ marks_of (trace w3) = [MarkSuccess 0; MarkSuccess 0; MarkSuccess 0]
  /\ TaskAPIUser_task_ids w3 = [PStr "t1"]
  /\ py_in (PStr "t1") (TaskAPIUser_task_ids w3) = true.
Proof. vm_compute. repeat split. Qed.

(** ** Create, then update answered by 404 *)

(** C3, as amended.  A user creates a task and receives an identifier
    [tid] with status 201; the user then runs [update_task], which picks
    [tid], and the server answers 404.  Both requests are marked
    successes and no failure is marked.  The handler removes the first
    item [==] to [tid] from the list, which then holds as many
    occurrences of [tid] as before the create.  When [tid] was not
    tracked before the create, [tid] is absent afterwards and the list
    is again what it was before the create. *)
Theorem create_then_update_404 (self : nat) (env : Env) (w : World)
        (rc ru : Response) (tid : pyval) :
  replies env (net_pos w) = Responds rc ->
  status_code rc = 201 ->
  returned_id rc = Some tid ->
  (TaskAPIUser_task_ids w ++ [tid])%list
    !! (draws env (3 + rng_pos w)
        mod length (TaskAPIUser_task_ids w ++ [tid])%list)%nat
  = Some tid ->
  replies env (S (net_pos w)) = Responds ru ->
  status_code ru = 404 ->
  exists data w1 w2 req1 req2,
    TaskAPIUser.create_task self env w = (Ret data, w1)
    /\ TaskAPIUser_task_ids w1 = (TaskAPIUser_task_ids w ++ [tid])%list
    /\ TaskAPIUser.update_task self env w1 = (Ret PNone, w2)
    /\ method req2 = PUT
    /\ url req2 = [Lit "/updateTask/"; Fmt tid]
    /\ trace w2 = (trace w ++ [Sent self req1; MarkSuccess self;
                               Sent self req2; MarkSuccess self])%list
    /\ py_remove tid (TaskAPIUser_task_ids w1) = Some (TaskAPIUser_task_ids w2)
    /\ py_count tid (TaskAPIUser_task_ids w2) = py_count tid (TaskAPIUser_task_ids w)
    /\ (py_in tid (TaskAPIUser_task_ids w) = false ->
        TaskAPIUser_task_ids w2 = TaskAPIUser_task_ids w
        /\ py_in tid (TaskAPIUser_task_ids w2) = false).
Proof.
  intros Hrc Hsc Hid Hpick Hru Hsu.
  destruct (returned_id_inv rc tid Hid) as (data & t & Hbody & Htask & Htid & Htruthy).
  destruct (create_task_call self env w rc Hrc) as (h & n & priority & Hcreate).
  rewrite (create_task_with_201 self env _ rc data t Hsc Hbody Htask) in Hcreate.
  rewrite Htruthy, Htid in Hcreate.
  set (w1 := log_event (MarkSuccess self)
               (store_TaskAPIUser_ids (TaskAPIUser_task_ids w ++ [tid])
                  (after_call 3 self (TaskAPIUser.create_request h n priority) w))) in *.
  assert (TaskAPIUser_task_ids w1 <> []) as Hne
      by (simpl; intros H; destruct (TaskAPIUser_task_ids w); discriminate).
  destruct (update_task_call self env w1 ru Hne Hru)
    as (task_id & h' & status & priority' & Hpick' & Hupdate).
  assert (Some task_id = Some tid) as [= ->] by (rewrite <- Hpick'; exact Hpick).
  destruct (proj1 (py_remove_in tid (TaskAPIUser_task_ids w1))
                  (py_in_lookup _ _ _ Hpick')) as [ids2 Hrm].
  rewrite (update_task_with_404 self tid ru env _ ids2 Hsu) in Hupdate by exact Hrm.
  exists data, w1. eexists.
  exists (TaskAPIUser.create_request h n priority),
         (TaskAPIUser.update_request tid h' status priority').
  split; [exact Hcreate|]. split; [reflexivity|].
  split; [exact Hupdate|]. simpl.
  split; [reflexivity|]. split; [reflexivity|].
  split; [rewrite <- !app_assoc; reflexivity|].
  split; [exact Hrm|].
  pose proof (py_remove_count _ _ _ Hrm) as Hcount. simpl in Hcount, Hrm.
  rewrite py_count_snoc_self in Hcount.
  split; [congruence|].
  intros Hfresh. rewrite (py_remove_snoc_fresh _ _ Hfresh) in Hrm.
  injection Hrm as <-. split; [reflexivity | exact Hfresh].
Qed.

Lemma create_then_update_404_witness :
  exists w1 w2,
    snd (TaskAPIUser.create_task 0
           (scripted [] [created (PStr "t1"); ok_response 404 PNone]) initial_world)
    = w1
    /\ TaskAPIUser_task_ids w1 = [PStr "t1"]
    /\ TaskAPIUser.update_task 0
         (scripted [] [created (PStr "t1"); ok_response 404 PNone]) w1
       = (Ret PNone, w2)
    /\ marks_of (trace w2) = [MarkSuccess 0; MarkSuccess 0]
    /\ TaskAPIUser_task_ids w2 = []
    /\ py_in (PStr "t1") (TaskAPIUser_task_ids w2) = false.
Proof.
  destruct (create_then_update_404 0
              (scripted [] [created (PStr "t1"); ok_response 404 PNone])
              initial_world
              (mkResponse 201 (Some (PDict [("task", PDict [("id", PStr "t1")])])) "")
              (mkResponse 404 (Some PNone) "") (PStr "t1")
              eq_refl eq_refl eq_refl eq_refl eq_refl eq_refl)
    as (data & w1 & w2 & req1 & req2 & Hc & Hids1 & Hu & _ & _ & Htrace & _ & _ & Hfresh).
  destruct (Hfresh eq_refl) as [Hids2 Habsent].
  exists w1, w2. rewrite Hc. split; [reflexivity|].
  split; [exact Hids1|]. split; [exact Hu|].
  split; [rewrite Htrace; reflexivity|].
  split; [exact Hids2 | exact Habsent].
Defined.

(** C3 as stated fails when the identifier is already tracked: from the
    list ["t1"], a create answered 201 with "t1" makes it ["t1"; "t1"],
    and the update on "t1" answered 404 removes the first copy only.
    Both requests are marked successes, but "t1" is still in the list. *)
Lemma update_404_leaves_earlier_copy :
  let env := scripted [] [created (PStr "t1"); ok_response 404 PNone] in
  let w1 := snd (TaskAPIUser.create_task 0 env (mkWorld [PStr "t1"] [] 0 0 [])) in
  let w2 := snd (TaskAPIUser.update_task 0 env w1) in
  TaskAPIUser_task_ids w1 = [PStr "t1"; PStr "t1"]
  /\ calls_of (trace w2)
     = [(0%nat, TaskAPIUser.create_request "00000000" 1000 "low");
        (0%nat, TaskAPIUser.update_request (PStr "t1") "000000" "pending" "low")]
  /\ url (TaskAPIUser.update_request (PStr "t1") "000000" "pending" "low")
     = [Lit "/updateTask/"; Fmt (PStr "t1")]
  /\ marks_of (trace w2) = [MarkSuccess 0; MarkSuccess 0]
  /\ TaskAPIUser_task_ids w2 = [PStr "t1"]
  /\ py_in (PStr "t1") (TaskAPIUser_task_ids w2) = true.
Proof. vm_compute. repeat split. Qed.

(** ** Listing tasks *)








(** A run with draws 3, 1, 2: page 4, limit 10, status "in_progress". *)
Example list_tasks_draws :
  calls_of (trace (snd (TaskAPIUser.list_tasks 0
                          (scripted [3; 1; 2]%nat [ok_response 500 PNone])
                          initial_world)))
  = [(0%nat, TaskAPIUser.list_request
               (<["status" := PStr "in_progress"]>
                  (<["limit" := PInt 10]> (<["page" := PInt 4]> ∅))))].
Proof. vm_compute. reflexivity. Qed.


(** ** Stopping users *)

Lemma on_stop_attempts_every_id_witness :
  let w := mkWorld [PStr "t1"; PInt 7; PStr "t3"] [] 0 0 [] in
  let env := scripted [] [ok_response 200 PNone; Throws "timed out";
                          ok_response 500 PNone] in
  (length (TaskAPIUser_task_ids w) < 4)%nat
  /\ exists w' events,
      TaskAPIUser.on_stop 4 0 env w = Some (Ret tt, w')
      /\ trace w' = (trace w ++ events)%list
      /\ calls_of events
         = map (fun task_id => (0%nat,
             mkRequest DELETE [Lit "/deleteTask/"; Fmt task_id]
               None None (Some "/deleteTask/[id]") false))
               (TaskAPIUser_task_ids w)
      /\ printed_of events
         = cleanup_failures env (net_pos w) (TaskAPIUser_task_ids w)
      /\ length events
         = (length (calls_of events) + length (printed_of events))%nat.
Proof.
  split; [simpl; lia|].
  apply (on_stop_attempts_every_id 4 0
           (scripted [] [ok_response 200 PNone; Throws "timed out";
                         ok_response 500 PNone])
           (mkWorld [PStr "t1"; PInt 7; PStr "t3"] [] 0 0 [])).
  simpl. lia.
Defined.

(** The pass of the witness, in full: three delete calls, and one printed
    line for the second, which raised. *)
Example on_stop_three_ids :
  TaskAPIUser.on_stop 4 0
    (scripted [] [ok_response 200 PNone; Throws "timed out"; ok_response 500 PNone])
    (mkWorld [PStr "t1"; PInt 7; PStr "t3"] [] 0 0 [])
  = Some (Ret tt,
          mkWorld [PStr "t1"; PInt 7; PStr "t3"] [] 0 3
            [Sent 0 (mkRequest DELETE [Lit "/deleteTask/"; Fmt (PStr "t1")] None None
                       (Some "/deleteTask/[id]") false);
             Sent 0 (mkRequest DELETE [Lit "/deleteTask/"; Fmt (PInt 7)] None None
                       (Some "/deleteTask/[id]") false);
             Printed [Lit "Failed to cleanup task "; Fmt (PInt 7); Lit ": ";
                      FmtExn (ClientError "timed out")];
             Sent 0 (mkRequest DELETE [Lit "/deleteTask/"; Fmt (PStr "t3")] None None
                       (Some "/deleteTask/[id]") false)]).
Proof. reflexivity. Qed.

(** C9.  [on_stop] removes nothing: once the loop has ended, the tracked
    list of [TaskAPIUser] (and that of [AdminUser]) is the list it was
    when the hook began, whatever the delete calls returned. *)
Theorem on_stop_keeps_task_ids (fuel self : nat) (env : Env) (w : World) :
  (length (TaskAPIUser_task_ids w) < fuel)%nat ->
  exists w',
    TaskAPIUser.on_stop fuel self env w = Some (Ret tt, w')
    /\ TaskAPIUser_task_ids w' = TaskAPIUser_task_ids w
    /\ AdminUser_task_ids w' = AdminUser_task_ids w.
Proof.
  intros Hfuel. unfold TaskAPIUser.on_stop.
  rewrite on_stop_from_run by lia.
  eexists. split; [reflexivity|]. split; reflexivity.
Qed.

Lemma on_stop_keeps_task_ids_witness :
  (length [PStr "t1"; PStr "t2"] < 3)%nat
  /\ exists w',
      TaskAPIUser.on_stop 3 0
        (scripted [] [ok_response 200 PNone; ok_response 200 PNone])
        (mkWorld [PStr "t1"; PStr "t2"] [PStr "a1"] 0 0 [])
      = Some (Ret tt, w')
      /\ TaskAPIUser_task_ids w' = [PStr "t1"; PStr "t2"]
      /\ AdminUser_task_ids w' = [PStr "a1"].
Proof.
  split; [simpl; lia|].
  apply (on_stop_keeps_task_ids 3 0
           (scripted [] [ok_response 200 PNone; ok_response 200 PNone])
           (mkWorld [PStr "t1"; PStr "t2"] [PStr "a1"] 0 0 [])).
  simpl. lia.
Defined.

(** C2, as amended.  When the runtime stops a [TaskAPIUser], the hook
    makes one delete call, a DELETE on "/deleteTask/<id>", for each
    identifier in that user's tracked list, in list order, and
    returns. *)
Theorem stop_TaskAPIUser_deletes_tracked_ids (fuel : nat) (u : User) (env : Env)
        (w : World) (ids : list pyval) :
  cls u = TaskAPIUser ->
  task_ids w u = Some ids ->
  (length ids < fuel)%nat ->
  exists w',
    stop_user fuel u env w = Some (Ret tt, w')
    /\ calls_of (trace w')
       = (calls_of (trace w)
          ++ map (fun task_id => (uid u,
              mkRequest DELETE [Lit "/deleteTask/"; Fmt task_id]
                None None (Some "/deleteTask/[id]") false)) ids)%list.
Proof.
  intros Hcls Hids Hfuel. unfold stop_user, task_ids in *. rewrite Hcls in *.
  injection Hids as <-. unfold TaskAPIUser.on_stop.
  rewrite on_stop_from_run by lia. rewrite drop_0.
  eexists. split; [reflexivity|]. simpl.
  rewrite calls_of_app, calls_of_cleanup_events. reflexivity.
Qed.

Lemma stop_TaskAPIUser_deletes_tracked_ids_witness :
  exists w',
    stop_user 3 (mkUser 5 TaskAPIUser) (scripted [] [])
              (mkWorld [PStr "t1"; PStr "t2"] [] 0 0 [])
    = Some (Ret tt, w')
    /\ calls_of (trace w')
       = [(5%nat,
           mkRequest DELETE [Lit "/deleteTask/"; Fmt (PStr "t1")]
             None None (Some "/deleteTask/[id]") false);
          (5%nat,
              mkRequest DELETE [Lit "/deleteTask/"; Fmt (PStr "t2")]
                None None (Some "/deleteTask/[id]") false)].
Proof.
  apply (stop_TaskAPIUser_deletes_tracked_ids 3 (mkUser 5 TaskAPIUser) (scripted [] [])
           (mkWorld [PStr "t1"; PStr "t2"] [] 0 0 []) [PStr "t1"; PStr "t2"]).
  - reflexivity.
  - reflexivity.
  - simpl. lia.
Defined.

(** C2 as stated fails for [AdminUser], the other class that tracks
    identifiers: it defines no [on_stop], so stopping an admin user whose
    list holds "a1" makes no call at all and leaves the store as it was. *)
Lemma stop_AdminUser_deletes_nothing :
  let w := mkWorld [] [PStr "a1"] 1 1
                   [Sent 9 (AdminUser.admin_create_request "00000000")] in
  task_ids w (mkUser 9 AdminUser) = Some [PStr "a1"]
  /\ stop_user 2 (mkUser 9 AdminUser) (scripted [] []) w = Some (Ret tt, w)
  /\ snd (AdminUser.admin_create_task 9 (scripted [] [created (PStr "a1")]) initial_world)
     = w.
Proof. vm_compute. repeat split. Qed.

(** * Further properties of the script *)

(** ** What a method leaves alone *)

Lemma same_ids_refl (w : World) : same_ids w w.
Proof. split; reflexivity. Qed.

Lemma same_ids_trans (w1 w2 w3 : World) :
  same_ids w1 w2 -> same_ids w2 w3 -> same_ids w1 w3.
Proof. intros [H1 H2] [H3 H4]. split; congruence. Qed.

Section keeps_relation.
Variable P : World -> World -> Prop.
Hypothesis P_refl : forall w, P w w.
Hypothesis P_trans : forall w1 w2 w3, P w1 w2 -> P w2 w3 -> P w1 w3.

Lemma keeps_ret {A : Type} (a : A) : keeps P (mret a).
Proof. intros env w. apply P_refl. Qed.

Lemma keeps_raise {A : Type} (e : Exn) : keeps P (@raise A e).
Proof. intros env w. apply P_refl. Qed.

Lemma keeps_bind {A B : Type} (c : M A) (f : A -> M B) :
  keeps P c -> (forall a, keeps P (f a)) -> keeps P (x ← c; f x).
Proof.
  intros Hc Hf env w. unfold mbind, M_bind.
  specialize (Hc env w). destruct (c env w) as [[a|e] w1]; simpl in *.
  - eapply P_trans; [exact Hc | apply Hf].
  - exact Hc.
Qed.

Lemma keeps_try_except {A : Type} (c : M A) (h : Exn -> M A) :
  keeps P c -> (forall e, keeps P (h e)) -> keeps P (try_except c h).
Proof.
  intros Hc Hh env w. unfold try_except.
  specialize (Hc env w). destruct (c env w) as [[a|e] w1]; simpl in *.
  - exact Hc.
  - eapply P_trans; [exact Hc | apply Hh].
Qed.

Lemma keeps_for_range (body : Z -> M unit) (k : nat) (i : Z) :
  (forall j, keeps P (body j)) -> keeps P (for_range i k body).
Proof.
  intros Hbody. revert i. induction k as [|k IH]; intros i; simpl.
  - apply keeps_ret.
  - apply keeps_bind; [apply Hbody | intros _; apply IH].
Qed.

Hypothesis P_draw : forall w, P w (next_draw w).

Lemma keeps_draw : keeps P draw.
Proof. intros env w. apply P_draw. Qed.

Lemma keeps_randint (a b : Z) : keeps P (randint a b).
Proof. apply keeps_bind; [apply keeps_draw | intros; apply keeps_ret]. Qed.

Lemma keeps_uuid4_hex_prefix (k : nat) : keeps P (uuid4_hex_prefix k).
Proof. apply keeps_bind; [apply keeps_draw | intros; apply keeps_ret]. Qed.

Lemma keeps_choice {A : Type} (l : list A) : keeps P (choice l).
Proof.
  destruct l as [|a l]; [apply keeps_raise|].
  unfold choice. apply keeps_bind; [apply keeps_draw|].
  intros r. destruct (_ !! _); [apply keeps_ret | apply keeps_raise].
Qed.
End keeps_relation.

Lemma same_ids_next_draw (w : World) : same_ids w (next_draw w).
Proof. split; reflexivity. Qed.

Lemma same_ids_send (self : nat) (req : Request) : keeps same_ids (send self req).
Proof.
  intros env w. unfold send. destruct (replies env (net_pos w)); split; reflexivity.
Qed.

Lemma same_ids_emit (ev : Event) : keeps same_ids (emit ev).
Proof. intros env w. split; reflexivity. Qed.

Lemma same_ids_response_json (r : Response) : keeps same_ids (response_json r).
Proof. intros env w. unfold response_json. destruct (body r); split; reflexivity. Qed.

(** Methods built from draws, calls, marks and prints keep both lists. *)
Ltac keeps_same_ids :=
  repeat first
    [ apply (keeps_randint same_ids same_ids_refl same_ids_trans same_ids_next_draw)
    | apply (keeps_uuid4_hex_prefix same_ids same_ids_refl same_ids_trans
                                    same_ids_next_draw)
    | apply (keeps_choice same_ids same_ids_refl same_ids_trans same_ids_next_draw)
    | apply (keeps_draw same_ids same_ids_next_draw)
    | apply same_ids_send
    | apply same_ids_emit
    | apply same_ids_response_json
    | apply (keeps_for_range same_ids same_ids_refl same_ids_trans)
    | apply (keeps_try_except same_ids same_ids_trans)
    | apply (keeps_ret same_ids same_ids_refl)
    | apply (keeps_raise same_ids same_ids_refl)
    | apply (keeps_bind same_ids same_ids_trans)
    | match goal with
      | |- keeps _ (if ?b then _ else _) => destruct b
      | |- keeps _ (match ?x with _ => _ end) => destruct x
      | |- forall _, keeps _ _ => intro
      end
    | progress cbv zeta ].

(** ** Methods that track nothing *)

(** The methods of [DatabaseStressUser] and [ReadOnlyUser], the two
    health and metrics tasks, [list_tasks], [admin_bulk_operations] and
    the start hook never change a tracked list, whatever the draws and
    the outcomes of their calls, also when they raise. *)
Theorem untracked_methods_keep_ids (self : nat) (client : Client) :
  keeps same_ids (TaskAPIUser.list_tasks self)
  /\ keeps same_ids (TaskAPIUser.health_check self)
  /\ keeps same_ids (TaskAPIUser.metrics_endpoint self)
  /\ keeps same_ids (snd (TaskAPIUser.on_start self client))
  /\ keeps same_ids (DatabaseStressUser.intensive_list_operations self)
  /\ keeps same_ids (DatabaseStressUser.batch_create_operations self)
  /\ keeps same_ids (ReadOnlyUser.browse_tasks self)
  /\ keeps same_ids (ReadOnlyUser.check_health self)
  /\ keeps same_ids (AdminUser.admin_bulk_operations self).
Proof.
  repeat apply conj.
  - unfold TaskAPIUser.list_tasks, TaskAPIUser.list_tasks_with. keeps_same_ids.
  - unfold TaskAPIUser.health_check. keeps_same_ids.
  - unfold TaskAPIUser.metrics_endpoint. keeps_same_ids.
  - unfold TaskAPIUser.on_start. simpl. keeps_same_ids.
  - unfold DatabaseStressUser.intensive_list_operations,
      DatabaseStressUser.intensive_round. keeps_same_ids.
  - unfold DatabaseStressUser.batch_create_operations,
      DatabaseStressUser.batch_round. keeps_same_ids.
  - unfold ReadOnlyUser.browse_tasks. keeps_same_ids.
  - unfold ReadOnlyUser.check_health. keeps_same_ids.
  - unfold AdminUser.admin_bulk_operations. keeps_same_ids.
Qed.

(** ** Loops of calls *)

Lemma only_calls_one (self : nat) (req : Request) (w : World) :
  only_calls self [req] w (log_event (Sent self req) (next_call w)).
Proof. repeat split. simpl. lia. Qed.

(** A draw in between changes nothing that [only_calls] looks at. *)
Lemma only_calls_after_draw (self : nat) (cs : list Request) (w w' : World) :
  only_calls self cs (next_draw w) w' -> only_calls self cs w w'.
Proof. intros H. exact H. Qed.

Lemma send_one_call (self : nat) (req : Request) (env : Env) (w : World) :
  only_calls self [req] w (snd ((_ ← send self req; mret tt) env w))
  /\ ((exists r, replies env (net_pos w) = Responds r) ->
      fst ((_ ← send self req; mret tt) env w) = Ret tt).
Proof.
  destruct (replies env (net_pos w)) as [r|msg] eqn:Hreply.
  - erewrite bind_ret_run by (apply send_run; exact Hreply).
    split; [apply only_calls_one | reflexivity].
  - erewrite bind_raise_run by (apply send_raise_run; exact Hreply).
    split; [apply only_calls_one | intros [r Hr]; discriminate].
Qed.

Lemma for_range_calls (self : nat) (ok : Z -> Request -> Prop) (body : Z -> M unit) :
  (forall i, one_call_round self (ok i) (body i)) ->
  forall (k : nat) (i : Z) (env : Env) (w : World),
  exists cs,
    (length cs <= k)%nat
    /\ (forall j req, cs !! j = Some req -> ok (i + Z.of_nat j) req)
    /\ only_calls self cs w (snd (for_range i k body env w))
    /\ (responds_from env (net_pos w) ->
        length cs = k /\ fst (for_range i k body env w) = Ret tt).
Proof.
  intros Hbody. induction k as [|k IH]; intros i env w.
  - exists []. simpl. split; [lia|]. split; [intros j req H; discriminate|].
    split; [|intros _; split; reflexivity].
    repeat split; simpl; [rewrite app_nil_r; reflexivity | lia].
  - destruct (Hbody i env w) as (req & Hok & (Htr & Hnet & Hids) & Hret).
    simpl for_range. unfold mbind, M_bind.
    destruct (body i env w) as [[[]|e] w1] eqn:Hrun; simpl in *.
    + destruct (IH (i + 1) env w1) as (cs & Hlen & Hoks & (Htr' & Hnet' & Hids') & Hresp).
      exists (req :: cs). simpl.
      split; [lia|].
      split.
      { intros [|j] req' Hj; simpl in Hj.
        - injection Hj as <-. rewrite Z.add_0_r. exact Hok.
        - replace (i + Z.of_nat (S j)) with (i + 1 + Z.of_nat j) by lia.
          apply Hoks, Hj. }
      split.
      { split; [rewrite Htr', Htr, <- app_assoc; reflexivity|].
        split; [rewrite Hnet', Hnet; simpl; lia | eapply same_ids_trans; eassumption]. }
      intros Hall.
      destruct Hresp as [Hk Hfst].
      { intros m Hm. apply Hall. lia. }
      split; [lia | exact Hfst].
    + exists [req]. simpl.
      split; [lia|].
      split.
      { intros [|j] req' Hj; simpl in Hj; [|discriminate].
        injection Hj as <-. rewrite Z.add_0_r. exact Hok. }
      split; [repeat split; assumption || apply Hids|].
      intros Hall. destruct (Hall (net_pos w) ltac:(lia)) as [r Hr].
      specialize (Hret (ex_intro _ r Hr)). discriminate.
Qed.





(** ** The stress loops *)





(** ** The bulk sweep of [AdminUser] *)

Lemma bulk_round_one_call (self : nat) (i : Z) :
  one_call_round self (fun req => req = AdminUser.bulk_request i)
    (_ ← send self (AdminUser.bulk_request i); mret tt).
Proof.
  intros env w. exists (AdminUser.bulk_request i).
  split; [reflexivity | apply send_one_call].
Qed.

(** When the first call of the loop to raise is the one at offset [j],
    the loop ends there with that exception, [j + 1] calls made. *)
Lemma bulk_loop_stops (self : nat) (env : Env) (k : nat) :
  forall (i : Z) (w : World) (j : nat) (msg : string),
    (j < k)%nat ->
    (forall m, (m < j)%nat -> exists r, replies env (net_pos w + m) = Responds r) ->
    replies env (net_pos w + j) = Throws msg ->
    fst (for_range i k (fun i => _ ← send self (AdminUser.bulk_request i); mret tt)
           env w) = Raise (ClientError msg)
    /\ net_pos (snd (for_range i k
                       (fun i => _ ← send self (AdminUser.bulk_request i); mret tt)
                       env w)) = (net_pos w + S j)%nat.
Proof.
  induction k as [|k IH]; intros i w j msg Hj Hbefore Hthrow; [lia|].
  simpl for_range. destruct j as [|j].
  - rewrite Nat.add_0_r in Hthrow.
    erewrite bind_raise_run
      by (erewrite bind_raise_run by (apply send_raise_run; exact Hthrow);
          reflexivity).
    simpl. split; [reflexivity | lia].
  - destruct (Hbefore 0%nat ltac:(lia)) as [r Hr]. rewrite Nat.add_0_r in Hr.
    erewrite bind_ret_run
      by (erewrite bind_ret_run by (apply send_run; exact Hr); reflexivity).
    destruct (IH (i + 1) (log_event (Sent self (AdminUser.bulk_request i)) (next_call w))
                 j msg ltac:(lia)) as [Hfst Hnet].
    + intros m Hm. simpl. destruct (Hbefore (S m) ltac:(lia)) as [r' Hr'].
      exists r'. rewrite <- Hr'. f_equal. lia.
    + simpl. rewrite <- Hthrow. f_equal. lia.
    + split; [exact Hfst|]. rewrite Hnet. simpl. lia.
Qed.

(** [admin_bulk_operations] consumes no random draw and makes its calls
    in page order: the [j]-th call asks for page [j + 1] with limit 50.
    It stops at the first call that raises: when the call at offset [j]
    is the first to raise, exactly [j + 1] calls are made and that
    exception leaves the method.  When every call is answered it makes
    exactly the five calls for pages 1 to 5 and returns. *)
Theorem admin_bulk_operations_calls (self : nat) (env : Env) (w : World) :
  exists cs,
    only_calls self cs w (snd (AdminUser.admin_bulk_operations self env w))
    /\ rng_pos (snd (AdminUser.admin_bulk_operations self env w)) = rng_pos w
    /\ (length cs <= 5)%nat
    /\ (forall j req, cs !! j = Some req ->
        req = AdminUser.bulk_request (Z.of_nat j)
        /\ params req = Some (<["limit" := PInt 50]>
                                (<["page" := PInt (Z.of_nat j + 1)]> ∅)))
    /\ (responds_from env (net_pos w) ->
        cs = map AdminUser.bulk_request [0; 1; 2; 3; 4]
        /\ fst (AdminUser.admin_bulk_operations self env w) = Ret PNone)
    /\ (forall j msg,
          (j < 5)%nat ->
          (forall m, (m < j)%nat ->
                     exists r, replies env (net_pos w + m) = Responds r) ->
          replies env (net_pos w + j) = Throws msg ->
          length cs = S j
          /\ fst (AdminUser.admin_bulk_operations self env w)
             = Raise (ClientError msg)).
Proof.
  unfold AdminUser.admin_bulk_operations.
  pose proof (bulk_loop_stops self env 5 0 w) as Hstop.
  destruct (for_range_calls self (fun i req => req = AdminUser.bulk_request i)
              (fun i => _ ← send self (AdminUser.bulk_request i); mret tt)
              (bulk_round_one_call self) 5 0 env w)
    as (cs & Hlen & Hoks & Hcalls & Hresp).
  assert (rng_pos (snd (for_range 0 5
            (fun i => _ ← send self (AdminUser.bulk_request i); mret tt) env w))
          = rng_pos w) as Hrng.
  { clear. generalize 0. generalize 5%nat. intros k. revert w.
    induction k as [|k IH]; intros w i; simpl; [reflexivity|].
    unfold mbind at 1, M_bind at 1. unfold mbind at 1, M_bind at 1. unfold send.
    destruct (replies env (net_pos w)); simpl; [|reflexivity].
    rewrite IH. reflexivity. }
  exists cs. unfold mbind, M_bind in *.
  destruct (for_range 0 5 _ env w) as [[[]|e] w1]; simpl in *.
  - split; [exact Hcalls|]. split; [exact Hrng|]. split; [exact Hlen|].
    split; [intros j req Hj; rewrite (Hoks j req Hj); split; reflexivity|].
    split.
    + intros Hall. destruct (Hresp Hall) as [Hk _]. split; [|reflexivity].
      do 5 (destruct cs as [|? cs]; [discriminate|]).
      destruct cs; [|discriminate].
      rewrite (Hoks 0%nat _ eq_refl), (Hoks 1%nat _ eq_refl), (Hoks 2%nat _ eq_refl),
        (Hoks 3%nat _ eq_refl), (Hoks 4%nat _ eq_refl).
      reflexivity.
    + intros j msg Hj Hbefore Hthrow.
      destruct (Hstop j msg Hj Hbefore Hthrow) as [Hfst _]. discriminate.
  - split; [exact Hcalls|]. split; [exact Hrng|]. split; [exact Hlen|].
    split; [intros j req Hj; rewrite (Hoks j req Hj); split; reflexivity|].
    split.
    + intros Hall. destruct (Hresp Hall) as [_ Hfst]. discriminate.
    + intros j msg Hj Hbefore Hthrow.
      destruct (Hstop j msg Hj Hbefore Hthrow) as [Hfst Hnet].
      destruct Hcalls as (_ & Hnet' & _).
      split; [lia | injection Hfst as ->; reflexivity].
Qed.

Lemma admin_bulk_operations_calls_witness :
  calls_of (trace (snd (AdminUser.admin_bulk_operations 4
                          (mkEnv (fun n => n) (fun _ => ok_response 200 (PList [])))
                          initial_world)))
  = map (fun req => (4%nat, req)) (map AdminUser.bulk_request [0; 1; 2; 3; 4]).
Proof.
  destruct (admin_bulk_operations_calls 4
              (mkEnv (fun n => n) (fun _ => ok_response 200 (PList [])))
              initial_world) as (cs & (Htr & _ & _) & _ & _ & _ & Hresp & _).
  destruct Hresp as [-> _].
  { intros m _. eexists. reflexivity. }
  rewrite Htr. reflexivity.
Defined.

(** The sweep stops at the first call that raises: with the third call
    failing, pages 1, 2 and 3 are asked for and the exception leaves the
    method. *)
Example admin_bulk_operations_interrupted :
  let run := AdminUser.admin_bulk_operations 4
               (scripted [] [ok_response 200 PNone; ok_response 200 PNone;
                             Throws "reset"])
               initial_world in
  fst run = Raise (ClientError "reset")
  /\ calls_of (trace (snd run))
     = map (fun req => (4%nat, req)) (map AdminUser.bulk_request [0; 1; 2]).
Proof. split; reflexivity. Qed.

(** ** [ReadOnlyUser] *)


(** ** Health and metrics tasks, and the start hook *)

(** [health_check] and [metrics_endpoint] classify every response: the
    request is marked a success when the status is 200 and a failure
    naming the status otherwise, exactly one mark in either case, and the
    method returns.  No body is read, so nothing can raise once the call
    is answered. *)
Theorem health_and_metrics_mark_by_status (self : nat) (env : Env) (w : World)
        (r : Response) :
  replies env (net_pos w) = Responds r ->
  TaskAPIUser.health_check self env w
  = (Ret PNone,
     log_event (if status_code r =? 200 then MarkSuccess self
                else MarkFailure self [Lit "Health check failed: ";
                                       Fmt (PInt (status_code r))])
       (log_event (Sent self TaskAPIUser.health_request) (next_call w)))
  /\ TaskAPIUser.metrics_endpoint self env w
     = (Ret PNone,
        log_event (if status_code r =? 200 then MarkSuccess self
                   else MarkFailure self [Lit "Metrics endpoint failed: ";
                                          Fmt (PInt (status_code r))])
          (log_event (Sent self TaskAPIUser.metrics_request) (next_call w))).
Proof.
  intros Hreply. split.
  - unfold TaskAPIUser.health_check.
    erewrite bind_ret_run by (apply send_run; exact Hreply).
    destruct (status_code r =? 200); reflexivity.
  - unfold TaskAPIUser.metrics_endpoint.
    erewrite bind_ret_run by (apply send_run; exact Hreply).
    destruct (status_code r =? 200); reflexivity.
Qed.

Lemma health_and_metrics_mark_by_status_witness :
  marks_of (trace (snd (TaskAPIUser.health_check 2
                          (scripted [] [ok_response 503 PNone]) initial_world)))
  = [MarkFailure 2 [Lit "Health check failed: "; Fmt (PInt 503)]]
  /\ marks_of (trace (snd (TaskAPIUser.metrics_endpoint 2
                             (scripted [] [ok_response 200 PNone]) initial_world)))
     = [MarkSuccess 2].
Proof.
  split.
  - rewrite (proj1 (health_and_metrics_mark_by_status 2
                      (scripted [] [ok_response 503 PNone]) initial_world
                      (mkResponse 503 (Some PNone) "") eq_refl)).
    reflexivity.
  - rewrite (proj2 (health_and_metrics_mark_by_status 2
                      (scripted [] [ok_response 200 PNone]) initial_world
                      (mkResponse 200 (Some PNone) "") eq_refl)).
    reflexivity.
Defined.

(** [on_start] turns certificate verification off and sets the timeout
    to 10 whatever the client held before.  Its probe of "/health" is
    log-only: for any status the hook returns normally, having made one
    call and printed one line, which names the status unless it is 200;
    it marks nothing and tracks nothing. *)
Theorem on_start_probe_is_log_only (self : nat) (client : Client) (env : Env)
        (w : World) (r : Response) :
  replies env (net_pos w) = Responds r ->
  fst (TaskAPIUser.on_start self client) = mkClient false (Some 10)
  /\ exists line,
      snd (TaskAPIUser.on_start self client) env w
      = (Ret tt,
         mkWorld (TaskAPIUser_task_ids w) (AdminUser_task_ids w) (rng_pos w)
                 (S (net_pos w))
                 (trace w ++ [Sent self TaskAPIUser.health_probe_request;
                              Printed line]))
      /\ (status_code r = 200 -> line = [Lit "‚úÖ API health check passed"])
      /\ (status_code r <> 200 ->
          line = [Lit "‚ùå API health check failed: "; Fmt (PInt (status_code r))]).
Proof.
  intros Hreply. split; [reflexivity|].
  unfold TaskAPIUser.on_start, snd.
  erewrite bind_ret_run by (apply send_run; exact Hreply).
  destruct (status_code r =? 200) eqn:Hst.
  - apply Z.eqb_eq in Hst. eexists. split.
    + unfold emit, log_event, next_call. simpl. rewrite <- app_assoc. reflexivity.
    + split; [reflexivity | congruence].
  - apply Z.eqb_neq in Hst. eexists. split.
    + unfold emit, log_event, next_call. simpl. rewrite <- app_assoc. reflexivity.
    + split; [congruence | reflexivity].
Qed.

Lemma on_start_probe_is_log_only_witness :
  exists line,
    snd (TaskAPIUser.on_start 0 (mkClient true None))
        (scripted [] [ok_response 500 PNone]) initial_world
    = (Ret tt,
       mkWorld [] [] 0 1 [Sent 0 TaskAPIUser.health_probe_request; Printed line])
    /\ line = [Lit "‚ùå API health check failed: "; Fmt (PInt 500)].
Proof.
  destruct (on_start_probe_is_log_only 0 (mkClient true None)
              (scripted [] [ok_response 500 PNone]) initial_world
              (mkResponse 500 (Some PNone) "") eq_refl)
    as (_ & line & Hrun & _ & Hline).
  exists line. split; [exact Hrun | apply Hline; discriminate].
Defined.

(** ** The start listener *)

(** [on_test_start] never raises: whether its connectivity probe returns
    200, another status or fails with an exception, the listener prints
    its three header lines and exactly one line for the probe, and
    returns.  It makes no call through a user's client. *)
Theorem on_test_start_never_raises (host target_user_count : pyval) (probe : Reply)
        (env : Env) (w : World) :
  exists line,
    on_test_start host target_user_count probe env w
    = (Ret tt,
       mkWorld (TaskAPIUser_task_ids w) (AdminUser_task_ids w) (rng_pos w) (net_pos w)
               (trace w ++ [Printed [Lit "üöÄ Starting Task API Load Test"];
                            Printed [Lit "Target: "; Fmt host];
                            Printed [Lit "Users: "; Fmt target_user_count];
                            Printed line]))
    /\ line = match probe with
              | Responds r =>
                  if status_code r =? 200
                  then [Lit "‚úÖ Initial connectivity test passed"]
                  else [Lit "‚ö†Ô∏è Initial connectivity test returned: ";
                        Fmt (PInt (status_code r))]
              | Throws msg =>
                  [Lit "‚ùå Initial connectivity test failed: ";
                   FmtExn (ClientError msg)]
              end.
Proof.
  eexists. split; [|reflexivity].
  unfold on_test_start, try_except, mbind, M_bind, emit, log_event, raise; simpl.
  destruct probe as [r|msg]; simpl.
  - destruct (status_code r =? 200); simpl; rewrite <- !app_assoc; reflexivity.
  - rewrite <- !app_assoc. reflexivity.
Qed.

(** ** The other branches of [create_task] *)

Lemma create_task_raises (self : nat) (env : Env) (w : World) (msg : string) :
  replies env (net_pos w) = Throws msg ->
  exists h n priority,
    TaskAPIUser.create_task self env w
    = (Raise (ClientError msg),
       after_call 3 self (TaskAPIUser.create_request h n priority) w).
Proof.
  intros Hreply. unfold TaskAPIUser.create_task.
  erewrite bind_ret_run by reflexivity.
  erewrite bind_ret_run by reflexivity.
  destruct (choice_run ["low"; "medium"; "high"] env (next_draw (next_draw w))
              ltac:(discriminate)) as (priority & _ & Hc).
  rewrite (bind_ret_run _ _ _ _ _ _ Hc).
  erewrite bind_raise_run by (apply send_raise_run; exact Hreply).
  eexists _, _, priority. reflexivity.
Qed.

Lemma create_task_with_other (self : nat) (env : Env) (w : World) (r : Response) :
  status_code r <> 201 ->
  TaskAPIUser.create_task_with self r env w
  = (Ret PNone,
     log_event (MarkFailure self [Lit "Failed to create task: ";
                                  Fmt (PInt (status_code r));
                                  Lit " - "; Fmt (PStr (text r))]) w).
Proof.
  intros Hst. unfold TaskAPIUser.create_task_with.
  apply Z.eqb_neq in Hst. rewrite Hst. reflexivity.
Qed.

(** On 201, a body that is not JSON, or not an object with an object (or
    nothing) at [task], makes the block raise and changes nothing. *)
Lemma create_task_with_201_raises (self : nat) (env : Env) (w : World) (r : Response) :
  status_code r = 201 ->
  (forall data, body r = Some data -> task_of data = None) ->
  exists e, TaskAPIUser.create_task_with self r env w = (Raise e, w).
Proof.
  intros Hst Hbad. unfold TaskAPIUser.create_task_with.
  rewrite Hst. cbn [Z.eqb Pos.eqb]. unfold response_json.
  destruct (body r) as [data|] eqn:Hbody.
  - specialize (Hbad data eq_refl).
    erewrite bind_ret_run by reflexivity.
    unfold task_of in Hbad.
    destruct data as [| | | | |d];
      try (erewrite bind_raise_run by reflexivity; eexists; reflexivity).
    destruct (dict_lookup d "task") as [v|] eqn:Hlookup; [|discriminate].
    erewrite bind_ret_run by (simpl; rewrite Hlookup; reflexivity).
    destruct v; try discriminate;
      erewrite bind_raise_run by reflexivity; eexists; reflexivity.
  - eexists. reflexivity.
Qed.

(** A create answered by a status other than 201 is marked a failure
    that names the status and the response text; nothing is appended and
    the method returns [None]. *)
Theorem create_task_failure (self : nat) (env : Env) (w : World) (r : Response) :
  replies env (net_pos w) = Responds r ->
  status_code r <> 201 ->
  exists req w',
    TaskAPIUser.create_task self env w = (Ret PNone, w')
    /\ same_ids w w'
    /\ trace w'
       = (trace w ++ [Sent self req;
                      MarkFailure self [Lit "Failed to create task: ";
                                        Fmt (PInt (status_code r));
                                        Lit " - "; Fmt (PStr (text r))]])%list.
Proof.
  intros Hreply Hst.
  destruct (create_task_call self env w r Hreply) as (h & n & priority & ->).
  rewrite (create_task_with_other self env _ r Hst).
  eexists (TaskAPIUser.create_request h n priority), _.
  split; [reflexivity|]. split; [split; reflexivity|].
  simpl. rewrite <- app_assoc. reflexivity.
Qed.

Lemma create_task_failure_witness :
  exists req w',
    TaskAPIUser.create_task 0
      (scripted [] [Responds (mkResponse 400 None "title is required")])
      (mkWorld [PStr "t1"] [] 0 0 [])
    = (Ret PNone, w')
    /\ same_ids (mkWorld [PStr "t1"] [] 0 0 []) w'
    /\ trace w'
       = [Sent 0 req;
          MarkFailure 0 [Lit "Failed to create task: "; Fmt (PInt 400);
                         Lit " - "; Fmt (PStr "title is required")]].
Proof.
  apply (create_task_failure 0
           (scripted [] [Responds (mkResponse 400 None "title is required")])
           (mkWorld [PStr "t1"] [] 0 0 [])
           (mkResponse 400 None "title is required")).
  - reflexivity.
  - discriminate.
Defined.

Lemma create_task_appends_or_keeps (self : nat) (env : Env) (w : World) :
  let w' := snd (TaskAPIUser.create_task self env w) in
  AdminUser_task_ids w' = AdminUser_task_ids w
  /\ net_pos w' = S (net_pos w)
  /\ (TaskAPIUser_task_ids w' = TaskAPIUser_task_ids w
      \/ exists r tid,
          replies env (net_pos w) = Responds r
          /\ status_code r = 201
          /\ returned_id r = Some tid
          /\ TaskAPIUser_task_ids w' = (TaskAPIUser_task_ids w ++ [tid])%list).
Proof.
  destruct (replies env (net_pos w)) as [r|msg] eqn:Hreply.
  - destruct (create_task_call self env w r Hreply) as (h & n & priority & ->).
    destruct (Z.eq_dec (status_code r) 201) as [Hst|Hst].
    + destruct (body r) as [data|] eqn:Hbody.
      * destruct (task_of data) as [t|] eqn:Htask.
        -- rewrite (create_task_with_201 self env _ r data t Hst Hbody Htask).
           destruct (truthy (id_of t)) eqn:Htruthy; simpl.
           ++ repeat split. right. exists r, (id_of t).
              repeat split; try assumption.
              unfold returned_id. rewrite Hbody, Htask, Htruthy. reflexivity.
           ++ repeat split. left. reflexivity.
        -- destruct (create_task_with_201_raises self env
                       (after_call 3 self (TaskAPIUser.create_request h n priority) w)
                       r Hst) as [e ->].
           { intros data' Hd. congruence. }
           simpl. repeat split. left. reflexivity.
      * destruct (create_task_with_201_raises self env
                    (after_call 3 self (TaskAPIUser.create_request h n priority) w)
                    r Hst) as [e ->].
        { intros data' Hd. congruence. }
        simpl. repeat split. left. reflexivity.
    + rewrite (create_task_with_other self env _ r Hst). simpl.
      repeat split. left. reflexivity.
  - destruct (create_task_raises self env w msg Hreply) as (h & n & priority & ->).
    simpl. repeat split. left. reflexivity.
Qed.

(** Whatever the draws and the outcome of its call, [create_task] makes
    exactly one call, leaves the list of [AdminUser] alone, and either
    leaves its own list as it was or appends the identifier of a 201
    response at the end: nothing is ever removed or reordered. *)
Theorem create_task_only_appends (self : nat) (env : Env) (w : World) :
  let w' := snd (TaskAPIUser.create_task self env w) in
  AdminUser_task_ids w' = AdminUser_task_ids w
  /\ net_pos w' = S (net_pos w)
  /\ (TaskAPIUser_task_ids w' = TaskAPIUser_task_ids w
      \/ exists r tid,
          replies env (net_pos w) = Responds r
          /\ status_code r = 201
          /\ returned_id r = Some tid
          /\ TaskAPIUser_task_ids w' = (TaskAPIUser_task_ids w ++ [tid])%list).
Proof. exact (create_task_appends_or_keeps self env w). Qed.

(** ** The other branches of [update_task] and [delete_task] *)

Lemma update_task_with_not_404 (self : nat) (task_id : pyval) (r : Response)
      (env : Env) (w : World) :
  status_code r <> 404 ->
  TaskAPIUser.update_task_with self task_id r env w
  = (Ret PNone,
     log_event (if status_code r =? 200 then MarkSuccess self
                else MarkFailure self [Lit "Failed to update task: ";
                                       Fmt (PInt (status_code r))]) w).
Proof.
  intros Hst. unfold TaskAPIUser.update_task_with.
  destruct (status_code r =? 200); [reflexivity|].
  apply Z.eqb_neq in Hst. rewrite Hst. reflexivity.
Qed.

Lemma delete_task_with_other (self : nat) (task_id : pyval) (r : Response)
      (env : Env) (w : World) :
  status_code r <> 200 -> status_code r <> 404 ->
  TaskAPIUser.delete_task_with self task_id r env w
  = (Ret PNone,
     log_event (MarkFailure self [Lit "Failed to delete task: ";
                                  Fmt (PInt (status_code r))]) w).
Proof.
  intros H200 H404. unfold TaskAPIUser.delete_task_with.
  apply Z.eqb_neq in H200, H404. rewrite H200, H404. reflexivity.
Qed.

(** [update_task] prunes on 404 only.  On a non-empty list and any other
    status the list is left as it was; the request is marked a success
    when the status is 200 and a failure naming the status otherwise.
    The identifier in the path is one of the tracked ones. *)
Theorem update_task_keeps_list_unless_404 (self : nat) (env : Env) (w : World)
        (r : Response) :
  TaskAPIUser_task_ids w <> [] ->
  replies env (net_pos w) = Responds r ->
  status_code r <> 404 ->
  exists task_id req w',
    In task_id (TaskAPIUser_task_ids w)
    /\ method req = PUT
    /\ url req = [Lit "/updateTask/"; Fmt task_id]
    /\ TaskAPIUser.update_task self env w = (Ret PNone, w')
    /\ same_ids w w'
    /\ trace w'
       = (trace w ++ [Sent self req;
                      if status_code r =? 200 then MarkSuccess self
                      else MarkFailure self [Lit "Failed to update task: ";
                                             Fmt (PInt (status_code r))]])%list.
Proof.
  intros Hne Hreply Hst.
  destruct (update_task_call self env w r Hne Hreply)
    as (task_id & h & status & priority & Hpick & ->).
  rewrite (update_task_with_not_404 self task_id r env _ Hst).
  exists task_id, (TaskAPIUser.update_request task_id h status priority). eexists.
  split; [apply list_elem_of_In; eapply list_elem_of_lookup_2; exact Hpick|].
  split; [reflexivity|]. split; [reflexivity|]. split; [reflexivity|].
  split; [split; reflexivity|].
  simpl. rewrite <- app_assoc. reflexivity.
Qed.

Lemma update_task_keeps_list_unless_404_witness :
  exists task_id req w',
    In task_id [PStr "t1"]
    /\ method req = PUT
    /\ url req = [Lit "/updateTask/"; Fmt task_id]
    /\ TaskAPIUser.update_task 0 (scripted [] [ok_response 500 PNone])
                               (mkWorld [PStr "t1"] [] 0 0 [])
       = (Ret PNone, w')
    /\ same_ids (mkWorld [PStr "t1"] [] 0 0 []) w'
    /\ trace w'
       = [Sent 0 req;
          MarkFailure 0 [Lit "Failed to update task: "; Fmt (PInt 500)]].
Proof.
  apply (update_task_keeps_list_unless_404 0 (scripted [] [ok_response 500 PNone])
           (mkWorld [PStr "t1"] [] 0 0 []) (mkResponse 500 (Some PNone) "")).
  - discriminate.
  - reflexivity.
  - discriminate.
Defined.

(** On 404, [update_task] removes the first occurrence of the chosen
    identifier, like [delete_task] does, and marks the request a
    success: the list holds one occurrence fewer. *)
Theorem update_task_404_removes_first_occurrence (self : nat) (env : Env) (w : World)
        (r : Response) :
  TaskAPIUser_task_ids w <> [] ->
  replies env (net_pos w) = Responds r ->
  status_code r = 404 ->
  exists task_id req w',
    In task_id (TaskAPIUser_task_ids w)
    /\ url req = [Lit "/updateTask/"; Fmt task_id]
    /\ TaskAPIUser.update_task self env w = (Ret PNone, w')
    /\ py_remove task_id (TaskAPIUser_task_ids w) = Some (TaskAPIUser_task_ids w')
    /\ py_count task_id (TaskAPIUser_task_ids w)
       = S (py_count task_id (TaskAPIUser_task_ids w'))
    /\ length (TaskAPIUser_task_ids w) = S (length (TaskAPIUser_task_ids w'))
    /\ AdminUser_task_ids w' = AdminUser_task_ids w
    /\ trace w' = (trace w ++ [Sent self req; MarkSuccess self])%list.
Proof.
  intros Hne Hreply Hst.
  destruct (update_task_call self env w r Hne Hreply)
    as (task_id & h & status & priority & Hpick & ->).
  destruct (proj1 (py_remove_in task_id (TaskAPIUser_task_ids w))
                  (py_in_lookup _ _ _ Hpick)) as [ids' Hrm].
  rewrite (update_task_with_404 self task_id r env _ ids' Hst) by exact Hrm.
  exists task_id, (TaskAPIUser.update_request task_id h status priority). eexists.
  split; [apply list_elem_of_In; eapply list_elem_of_lookup_2; exact Hpick|].
  split; [reflexivity|]. split; [reflexivity|]. simpl.
  split; [exact Hrm|]. split; [apply py_remove_count; exact Hrm|].
  split.
  { destruct (py_remove_first _ _ _ Hrm) as (pre & y & post & -> & -> & _).
    rewrite !length_app. simpl. lia. }
  split; [reflexivity|]. rewrite <- app_assoc. reflexivity.
Qed.

Lemma update_task_404_removes_first_occurrence_witness :
  exists w',
    TaskAPIUser.update_task 0 (scripted [1%nat] [ok_response 404 PNone])
                            (mkWorld [PStr "t1"; PStr "t2"; PStr "t2"] [] 0 0 [])
    = (Ret PNone, w')
    /\ length [PStr "t1"; PStr "t2"; PStr "t2"] = S (length (TaskAPIUser_task_ids w')).
Proof.
  destruct (update_task_404_removes_first_occurrence 0
              (scripted [1%nat] [ok_response 404 PNone])
              (mkWorld [PStr "t1"; PStr "t2"; PStr "t2"] [] 0 0 [])
              (mkResponse 404 (Some PNone) "")
              ltac:(discriminate) eq_refl eq_refl)
    as (task_id & req & w' & _ & _ & Hrun & _ & _ & Hlen & _).
  exists w'. split; [exact Hrun | exact Hlen].
Defined.

(** A delete answered by a status other than 200 and 404 is marked a
    failure naming the status, and the identifier stays in the list. *)
Theorem delete_task_failure_keeps_id (self : nat) (env : Env) (w : World)
        (r : Response) :
  TaskAPIUser_task_ids w <> [] ->
  replies env (net_pos w) = Responds r ->
  status_code r <> 200 ->
  status_code r <> 404 ->
  exists task_id w',
    In task_id (TaskAPIUser_task_ids w)
    /\ TaskAPIUser.delete_task self env w = (Ret PNone, w')
    /\ same_ids w w'
    /\ trace w'
       = (trace w ++ [Sent self (TaskAPIUser.delete_request task_id);
                      MarkFailure self [Lit "Failed to delete task: ";
                                        Fmt (PInt (status_code r))]])%list.
Proof.
  intros Hne Hreply H200 H404.
  destruct (delete_task_call self env w r Hne Hreply) as (task_id & Hpick & ->).
  rewrite (delete_task_with_other self task_id r env _ H200 H404).
  exists task_id. eexists.
  split; [apply list_elem_of_In; eapply list_elem_of_lookup_2; exact Hpick|].
  split; [reflexivity|]. split; [split; reflexivity|].
  simpl. rewrite <- app_assoc. reflexivity.
Qed.

Lemma delete_task_failure_keeps_id_witness :
  exists task_id w',
    In task_id [PStr "t1"]
    /\ TaskAPIUser.delete_task 0 (scripted [] [ok_response 503 PNone])
                               (mkWorld [PStr "t1"] [] 0 0 [])
       = (Ret PNone, w')
    /\ same_ids (mkWorld [PStr "t1"] [] 0 0 []) w'
    /\ trace w'
       = [Sent 0 (TaskAPIUser.delete_request task_id);
          MarkFailure 0 [Lit "Failed to delete task: "; Fmt (PInt 503)]].
Proof.
  apply (delete_task_failure_keeps_id 0 (scripted [] [ok_response 503 PNone])
           (mkWorld [PStr "t1"] [] 0 0 []) (mkResponse 503 (Some PNone) "")).
  - discriminate.
  - reflexivity.
  - discriminate.
  - discriminate.
Defined.

(** The guard [if task_id in self.task_ids] makes the two blocks safe
    for an identifier that is no longer in the list (another user of the
    class may have removed it from the shared list): for any identifier,
    status and list the block returns and never raises [ValueError];
    when the identifier is absent the list is left as it was, and a
    200 or 404 is still marked a success. *)
Theorem prune_blocks_never_raise (self : nat) (task_id : pyval) (r : Response)
        (env : Env) (w : World) :
  fst (TaskAPIUser.update_task_with self task_id r env w) = Ret PNone
  /\ fst (TaskAPIUser.delete_task_with self task_id r env w) = Ret PNone
  /\ (py_in task_id (TaskAPIUser_task_ids w) = false ->
      status_code r = 200 \/ status_code r = 404 ->
      TaskAPIUser.update_task_with self task_id r env w
      = (Ret PNone, log_event (MarkSuccess self) w)
      /\ TaskAPIUser.delete_task_with self task_id r env w
         = (Ret PNone, log_event (MarkSuccess self) w)).
Proof.
  assert (forall k : unit -> M pyval,
             (forall w0, fst (k tt env w0) = Ret PNone) ->
             fst ((ids ← get_ids TaskAPIUser;
                   _ ← (if py_in task_id ids
                        then ids_remove TaskAPIUser task_id else mret tt);
                   k tt) env w) = Ret PNone) as Hprune.
  { intros k Hk.
    rewrite (bind_ret_run _ _ env w (TaskAPIUser_task_ids w) w) by reflexivity.
    destruct (py_in task_id (TaskAPIUser_task_ids w)) eqn:Hin.
    - destruct (proj1 (py_remove_in _ _) Hin) as [ids' Hrm].
      rewrite (bind_ret_run _ _ _ _ _ _ (ids_remove_run task_id env w ids' Hrm)).
      apply Hk.
    - erewrite bind_ret_run by reflexivity. apply Hk. }
  split; [|split].
  - unfold TaskAPIUser.update_task_with.
    destruct (status_code r =? 200); [reflexivity|].
    destruct (status_code r =? 404); [|reflexivity].
    apply (Hprune (fun _ => _ ← emit (MarkSuccess self); mret PNone)).
    reflexivity.
  - unfold TaskAPIUser.delete_task_with.
    destruct (status_code r =? 200);
      [apply (Hprune (fun _ => _ ← emit (MarkSuccess self); mret PNone)); reflexivity|].
    destruct (status_code r =? 404); [|reflexivity].
    apply (Hprune (fun _ => _ ← emit (MarkSuccess self); mret PNone)).
    reflexivity.
  - intros Habsent Hst.
    unfold TaskAPIUser.update_task_with, TaskAPIUser.delete_task_with.
    destruct Hst as [-> | ->]; cbn [Z.eqb Pos.eqb];
      repeat rewrite (bind_ret_run _ _ env w (TaskAPIUser_task_ids w) w) by reflexivity;
      rewrite Habsent; split; reflexivity.
Qed.

Lemma prune_blocks_never_raise_witness :
  TaskAPIUser.delete_task_with 0 (PStr "gone") (mkResponse 404 None "")
    (scripted [] []) (mkWorld [PStr "t1"] [] 0 0 [])
  = (Ret PNone, log_event (MarkSuccess 0) (mkWorld [PStr "t1"] [] 0 0 [])).
Proof.
  apply (prune_blocks_never_raise 0 (PStr "gone") (mkResponse 404 None "")
           (scripted [] []) (mkWorld [PStr "t1"] [] 0 0 [])).
  - reflexivity.
  - right. reflexivity.
Defined.

(** ** Invariants of a schedule of tasks *)

Lemma no_new_ids_refl (w : World) : no_new_ids w w.
Proof. repeat split; auto. Qed.

Lemma no_new_ids_trans (w1 w2 w3 : World) :
  no_new_ids w1 w2 -> no_new_ids w2 w3 -> no_new_ids w1 w3.
Proof.
  intros (Ha & Hn & Hl & Hi) (Ha' & Hn' & Hl' & Hi').
  repeat split; [congruence | lia | lia | auto].
Qed.

Lemma no_new_ids_next_draw (w : World) : no_new_ids w (next_draw w).
Proof. repeat split; auto. Qed.

Lemma no_new_ids_send (self : nat) (req : Request) : keeps no_new_ids (send self req).
Proof.
  intros env w. unfold send.
  destruct (replies env (net_pos w)); repeat split; simpl; auto.
Qed.

Lemma no_new_ids_emit (ev : Event) : keeps no_new_ids (emit ev).
Proof. intros env w. repeat split; auto. Qed.

Lemma no_new_ids_response_json (r : Response) : keeps no_new_ids (response_json r).
Proof.
  intros env w. unfold response_json. destruct (body r); apply no_new_ids_refl.
Qed.

Lemma no_new_ids_get_ids : keeps no_new_ids (get_ids TaskAPIUser).
Proof. intros env w. apply no_new_ids_refl. Qed.

Lemma py_remove_incl (x : pyval) (l l' : list pyval) :
  py_remove x l = Some l' ->
  length l = S (length l') /\ forall y, In y l' -> In y l.
Proof.
  intros Hrm. destruct (py_remove_first _ _ _ Hrm) as (pre & z & post & -> & -> & _).
  split; [rewrite !length_app; simpl; lia|].
  intros y Hy. apply in_app_iff in Hy. apply in_app_iff. simpl. tauto.
Qed.

Lemma no_new_ids_ids_remove (x : pyval) : keeps no_new_ids (ids_remove TaskAPIUser x).
Proof.
  intros env w. unfold ids_remove.
  rewrite (bind_ret_run _ _ env w (TaskAPIUser_task_ids w) w) by reflexivity.
  destruct (py_remove x (TaskAPIUser_task_ids w)) as [l'|] eqn:Hrm.
  - destruct (py_remove_incl _ _ _ Hrm) as [Hlen Hin].
    repeat split; simpl; auto. lia.
  - apply no_new_ids_refl.
Qed.

Ltac keeps_no_new_ids :=
  repeat first
    [ apply (keeps_randint no_new_ids no_new_ids_refl no_new_ids_trans
                           no_new_ids_next_draw)
    | apply (keeps_uuid4_hex_prefix no_new_ids no_new_ids_refl no_new_ids_trans
                                    no_new_ids_next_draw)
    | apply (keeps_choice no_new_ids no_new_ids_refl no_new_ids_trans
                          no_new_ids_next_draw)
    | apply no_new_ids_send
    | apply no_new_ids_emit
    | apply no_new_ids_response_json
    | apply no_new_ids_get_ids
    | apply no_new_ids_ids_remove
    | apply (keeps_ret no_new_ids no_new_ids_refl)
    | apply (keeps_raise no_new_ids no_new_ids_refl)
    | apply (keeps_bind no_new_ids no_new_ids_trans)
    | match goal with
      | |- keeps _ (if ?b then _ else _) => destruct b
      | |- keeps _ (match ?x with _ => _ end) => destruct x
      | |- forall _, keeps _ _ => intro
      end
    | progress cbv zeta ].

Lemma other_tasks_add_nothing (self : nat) (t : TaskName) :
  t <> task_create_task -> keeps no_new_ids (run_task self t).
Proof.
  intros Ht. destruct t; try congruence; simpl.
  - unfold TaskAPIUser.list_tasks, TaskAPIUser.list_tasks_with. keeps_no_new_ids.
  - unfold TaskAPIUser.update_task, TaskAPIUser.update_task_with. keeps_no_new_ids.
  - unfold TaskAPIUser.delete_task, TaskAPIUser.delete_task_with. keeps_no_new_ids.
  - unfold TaskAPIUser.health_check. keeps_no_new_ids.
  - unfold TaskAPIUser.metrics_endpoint. keeps_no_new_ids.
Qed.

(** Only [create_task] can add to the list: every other task of
    [TaskAPIUser] leaves it no longer than it was and with no identifier
    that was not there, whatever the draws and the outcomes of the
    calls, also when the task raises. *)
Theorem only_create_task_adds_ids (self : nat) (t : TaskName) :
  t <> task_create_task -> keeps no_new_ids (run_task self t).
Proof. exact (other_tasks_add_nothing self t). Qed.

Lemma only_create_task_adds_ids_witness :
  no_new_ids (mkWorld [PStr "t1"; PStr "t2"] [] 0 0 [])
    (snd (run_task 0 task_delete_task (scripted [] [ok_response 200 PNone])
                   (mkWorld [PStr "t1"; PStr "t2"] [] 0 0 []))).
Proof.
  apply (only_create_task_adds_ids 0 task_delete_task). discriminate.
Defined.

Lemma ids_from_replies_refl (env : Env) (w : World) : ids_from_replies env w w.
Proof. repeat split; auto. Qed.

Lemma ids_from_replies_trans (env : Env) (w1 w2 w3 : World) :
  ids_from_replies env w1 w2 -> ids_from_replies env w2 w3 ->
  ids_from_replies env w1 w3.
Proof.
  intros (Ha & Hn & Hi) (Ha' & Hn' & Hi').
  split; [congruence|]. split; [lia|].
  intros x Hx. destruct (Hi' x Hx) as [H2 | (n & r & Hr & Hrest)].
  - destruct (Hi x H2) as [H1 | (n & r & Hr & Hrest)]; [left; exact H1|].
    right. exists n, r. split; [lia | exact Hrest].
  - right. exists n, r. split; [lia | exact Hrest].
Qed.

Lemma run_task_ids_from_replies (self : nat) (t : TaskName) (env : Env) (w : World) :
  ids_from_replies env w (snd (run_task self t env w)).
Proof.
  assert (t = task_create_task \/ t <> task_create_task) as [-> | Ht]
      by (destruct t; (left; reflexivity) || (right; discriminate)).
  - simpl. destruct (create_task_appends_or_keeps self env w) as (Ha & Hn & Hids).
    split; [exact Ha|]. split; [lia|].
    intros x Hx. destruct Hids as [Heq | (r & tid & Hr & Hst & Hid & Heq)].
    + left. rewrite <- Heq. exact Hx.
    + rewrite Heq in Hx. apply in_app_iff in Hx as [Hx | [<- | []]]; [left; exact Hx|].
      right. exists (net_pos w), r. split; [lia|]. auto.
  - destruct (other_tasks_add_nothing self t Ht env w) as (Ha & Hn & _ & Hi).
    split; [exact Ha|]. split; [exact Hn|]. intros x Hx. left. apply Hi, Hx.
Qed.

(** For every schedule of [TaskAPIUser] tasks, run by any users of the
    class, with any draws and any outcomes of the calls: every
    identifier in the tracked list at the end was in the list at the
    start or is the truthy [task.id] of a 201 response received in
    between; the list of [AdminUser] is never touched. *)
Theorem tracked_ids_come_from_creates (schedule : list (nat * TaskName))
        (env : Env) (w : World) :
  ids_from_replies env w (run_tasks schedule env w).
Proof.
  revert w. induction schedule as [|[self t] rest IH]; intros w; simpl.
  - apply ids_from_replies_refl.
  - eapply ids_from_replies_trans; [apply run_task_ids_from_replies | apply IH].
Qed.

(** A schedule from the empty store: two users create, one updates into
    a 404, one deletes.  The list ends with the one identifier that was
    handed out and not pruned. *)
Example run_tasks_four_steps :
  let env := scripted [] [created (PStr "t1"); created (PStr "t2");
                          ok_response 404 PNone; ok_response 500 PNone] in
  let w := run_tasks [(0%nat, task_create_task); (1%nat, task_create_task);
                      (1%nat, task_update_task); (0%nat, task_delete_task)]
                     env initial_world in
  TaskAPIUser_task_ids w = [PStr "t2"]
  /\ marks_of (trace w)
     = [MarkSuccess 0; MarkSuccess 1; MarkSuccess 1;
        MarkFailure 0 [Lit "Failed to delete task: "; Fmt (PInt 500)]].
Proof. vm_compute. split; reflexivity. Qed.

(** ** [admin_create_task], all outcomes *)

(** [admin_create_task] never marks a request and never prints: it makes
    one call, leaves the list of [TaskAPIUser] alone, and either leaves
    its own list as it was (any status but 201, no identifier, an
    exception) or appends the identifier of a 201 response at the end. *)
Theorem admin_create_task_effect (self : nat) (env : Env) (w : World) :
  let w' := snd (AdminUser.admin_create_task self env w) in
  (exists req, trace w' = (trace w ++ [Sent self req])%list)
  /\ TaskAPIUser_task_ids w' = TaskAPIUser_task_ids w
  /\ (AdminUser_task_ids w' = AdminUser_task_ids w
      \/ exists r tid,
          replies env (net_pos w) = Responds r
          /\ status_code r = 201
          /\ returned_id r = Some tid
          /\ AdminUser_task_ids w' = (AdminUser_task_ids w ++ [tid])%list).
Proof.
  unfold AdminUser.admin_create_task.
  erewrite bind_ret_run by reflexivity.
  destruct (replies env (net_pos w)) as [r|msg] eqn:Hreply.
  - erewrite bind_ret_run by (apply send_run; exact Hreply).
    unfold AdminUser.admin_create_task_with.
    destruct (status_code r =? 201) eqn:Hst.
    + apply Z.eqb_eq in Hst. unfold response_json.
      destruct (body r) as [data|] eqn:Hbody.
      * erewrite bind_ret_run by reflexivity.
        destruct (task_of data) as [t|] eqn:Htask.
        -- erewrite bind_ret_run by (apply py_get_task_run; exact Htask).
           erewrite bind_ret_run by apply py_get_id_run.
           destruct (truthy (id_of t)) eqn:Htruthy; simpl.
           ++ split; [eexists; reflexivity|]. split; [reflexivity|].
              right. exists r, (id_of t). repeat split; try assumption.
              unfold returned_id. rewrite Hbody, Htask, Htruthy. reflexivity.
           ++ split; [eexists; reflexivity|]. split; [reflexivity|].
              left. reflexivity.
        -- unfold task_of in Htask.
           destruct data as [| | | | |d];
             try (erewrite bind_raise_run by reflexivity; simpl;
                  split; [eexists; reflexivity|]; split; [reflexivity|];
                  left; reflexivity).
           destruct (dict_lookup d "task") as [v|] eqn:Hlookup; [|discriminate].
           erewrite bind_ret_run by (simpl; rewrite Hlookup; reflexivity).
           destruct v; try discriminate;
             erewrite bind_raise_run by reflexivity; simpl;
             (split; [eexists; reflexivity|]); (split; [reflexivity|]);
             left; reflexivity.
      * simpl. split; [eexists; reflexivity|]. split; [reflexivity|].
        left. reflexivity.
    + simpl. split; [eexists; reflexivity|]. split; [reflexivity|].
      left. reflexivity.
  - erewrite bind_raise_run by (apply send_raise_run; exact Hreply).
    simpl. split; [eexists; reflexivity|]. split; [reflexivity|]. left. reflexivity.
Qed.

(** ** Stopping two users of the same class *)

(** The list is the class's and [on_stop] removes nothing from it: when
    two [TaskAPIUser]s are stopped one after the other, each makes a
    DELETE on "/deleteTask/<id>" for every tracked identifier, so every
    identifier is asked to be deleted twice, and the list is still what
    it was. *)
Theorem two_stops_delete_twice (fuel : nat) (u1 u2 : User) (env : Env) (w : World) :
  cls u1 = TaskAPIUser ->
  cls u2 = TaskAPIUser ->
  (length (TaskAPIUser_task_ids w) < fuel)%nat ->
  exists w1 w2,
    stop_user fuel u1 env w = Some (Ret tt, w1)
    /\ stop_user fuel u2 env w1 = Some (Ret tt, w2)
    /\ calls_of (trace w2)
       = (calls_of (trace w)
          ++ map (fun task_id => (uid u1,
              mkRequest DELETE [Lit "/deleteTask/"; Fmt task_id]
                None None (Some "/deleteTask/[id]") false))
                 (TaskAPIUser_task_ids w)
          ++ map (fun task_id => (uid u2,
              mkRequest DELETE [Lit "/deleteTask/"; Fmt task_id]
                None None (Some "/deleteTask/[id]") false))
                 (TaskAPIUser_task_ids w))%list
    /\ TaskAPIUser_task_ids w2 = TaskAPIUser_task_ids w.
Proof.
  intros H1 H2 Hfuel. unfold stop_user, TaskAPIUser.on_stop. rewrite H1, H2.
  rewrite on_stop_from_run by lia.
  eexists. eexists. split; [reflexivity|].
  rewrite on_stop_from_run by (cbn [TaskAPIUser_task_ids]; lia).
  split; [reflexivity|]. simpl.
  split; [|reflexivity].
  rewrite !drop_0, !calls_of_app, !calls_of_cleanup_events, <- app_assoc.
  reflexivity.
Qed.

Lemma two_stops_delete_twice_witness :
  exists w1 w2,
    stop_user 2 (mkUser 0 TaskAPIUser) (scripted [] []) (mkWorld [PStr "t1"] [] 0 0 [])
    = Some (Ret tt, w1)
    /\ stop_user 2 (mkUser 1 TaskAPIUser) (scripted [] []) w1 = Some (Ret tt, w2)
    /\ calls_of (trace w2)
       = [(0%nat,
           mkRequest DELETE [Lit "/deleteTask/"; Fmt (PStr "t1")]
             None None (Some "/deleteTask/[id]") false);
          (1%nat,
              mkRequest DELETE [Lit "/deleteTask/"; Fmt (PStr "t1")]
                None None (Some "/deleteTask/[id]") false)]
    /\ TaskAPIUser_task_ids w2 = [PStr "t1"].
Proof.
  apply (two_stops_delete_twice 2 (mkUser 0 TaskAPIUser) (mkUser 1 TaskAPIUser)
           (scripted [] []) (mkWorld [PStr "t1"] [] 0 0 []));
    [reflexivity | reflexivity | simpl; lia].
Defined.

(** ** Configuration from a set environment *)

Lemma ascii_letter_facts (c : ascii) :
  is_ascii_letter c = true ->
  is_space c = false /\ digit_of c = None /\ Ascii.eqb c "_" = false
  /\ Ascii.eqb c "-" = false /\ Ascii.eqb c "+" = false
  /\ (N_of_ascii c <? 127)%N = true.
Proof.
  destruct c as [[] [] [] [] [] [] [] []]; intros H; try discriminate H;
    repeat split; reflexivity.
Qed.

Lemma continuation_high (b : ascii) (x : N) :
  continuation b = Some x -> (N_of_ascii b <? 128)%N = false.
Proof.
  unfold continuation.
  destruct (128 <=? N_of_ascii b)%N eqn:Hlo; simpl; [|discriminate].
  intros _. apply N.leb_le in Hlo. apply N.ltb_ge. exact Hlo.
Qed.

(** Decoding keeps every ASCII byte as its own code point. *)
Lemma utf8_decode_keeps_ascii (n : nat) :
  forall (l : list ascii) (cps : list N) (c : ascii),
    (length l <= n)%nat ->
    utf8_decode l = Some cps ->
    In c l -> (N_of_ascii c <? 128)%N = true ->
    In (N_of_ascii c) cps.
Proof.
  induction n as [|n IH]; intros l cps c Hlen Hdec Hin Hc.
  - destruct l; [destruct Hin | simpl in Hlen; lia].
  - destruct l as [|b0 r]; [destruct Hin|].
    simpl in Hlen. cbn [utf8_decode] in Hdec. cbv zeta in Hdec.
    destruct (N_of_ascii b0 <? 128)%N eqn:H0.
    { destruct (utf8_decode r) as [cps'|] eqn:Hr; [|discriminate].
      injection Hdec as <-. destruct Hin as [<- | Hin]; [left; reflexivity|].
      right. apply (IH r cps' c); [lia | exact Hr | exact Hin | exact Hc]. }
    assert (In c r) as Hin'
        by (destruct Hin as [<- | Hin]; [congruence | exact Hin]).
    clear Hin.
    destruct (N_of_ascii b0 <? 224)%N.
    { destruct r as [|b1 r1]; [discriminate|].
      destruct (continuation b1) as [x1|] eqn:H1; [|discriminate].
      destruct (_ <=? _)%N; [|discriminate].
      destruct (utf8_decode r1) as [cps'|] eqn:Hr; [|discriminate].
      injection Hdec as <-. right.
      apply continuation_high in H1.
      destruct Hin' as [<- | Hin']; [congruence|].
      apply (IH r1 cps' c); [simpl in Hlen; lia | exact Hr | exact Hin' | exact Hc]. }
    destruct (N_of_ascii b0 <? 240)%N.
    { destruct r as [|b1 [|b2 r2]]; try discriminate.
      destruct (continuation b1) as [x1|] eqn:H1; [|discriminate].
      destruct (continuation b2) as [x2|] eqn:H2; [|discriminate].
      destruct (_ && _)%bool; [|discriminate].
      destruct (utf8_decode r2) as [cps'|] eqn:Hr; [|discriminate].
      injection Hdec as <-. right.
      apply continuation_high in H1, H2.
      destruct Hin' as [<- | [<- | Hin']]; [congruence | congruence |].
      apply (IH r2 cps' c); [simpl in Hlen; lia | exact Hr | exact Hin' | exact Hc]. }
    destruct r as [|b1 [|b2 [|b3 r3]]]; try discriminate.
    destruct (continuation b1) as [x1|] eqn:H1; [|discriminate].
    destruct (continuation b2) as [x2|] eqn:H2; [|discriminate].
    destruct (continuation b3) as [x3|] eqn:H3; [|discriminate].
    destruct (_ && _)%bool; [|discriminate].
    destruct (utf8_decode r3) as [cps'|] eqn:Hr; [|discriminate].
    injection Hdec as <-. right.
    apply continuation_high in H1, H2, H3.
    destruct Hin' as [<- | [<- | [<- | Hin']]]; [congruence | congruence | congruence |].
    apply (IH r3 cps' c); [simpl in Hlen; lia | exact Hr | exact Hin' | exact Hc].
Qed.

Lemma ascii_forms_keeps_low (cps : list N) (l : list ascii) (c : ascii) :
  ascii_forms cps = Some l ->
  In (N_of_ascii c) cps -> (N_of_ascii c <? 127)%N = true ->
  In c l.
Proof.
  revert l. induction cps as [|cp rest IH]; intros l Hforms Hin Hc; [destruct Hin|].
  simpl in Hforms.
  destruct (ascii_form cp) as [c'|] eqn:Hcp; [|discriminate].
  destruct (ascii_forms rest) as [cs|]; [|discriminate].
  injection Hforms as <-.
  destruct Hin as [-> | Hin]; [|right; apply IH; auto].
  left. unfold ascii_form in Hcp. rewrite Hc in Hcp.
  injection Hcp as <-. apply ascii_N_embedding.
Qed.

Lemma lstrip_keeps (l : list ascii) (c : ascii) :
  In c l -> is_space c = false -> In c (lstrip l).
Proof.
  induction l as [|x r IH]; intros Hin Hc; [destruct Hin|].
  simpl. destruct (is_space x) eqn:Hx; [|exact Hin].
  destruct Hin as [-> | Hin]; [congruence | apply IH; assumption].
Qed.

Lemma strip_keeps (l : list ascii) (c : ascii) :
  In c l -> is_space c = false -> In c (strip l).
Proof.
  intros Hin Hc. unfold strip.
  apply in_rev. rewrite rev_involutive.
  apply lstrip_keeps; [|exact Hc].
  apply -> in_rev. apply lstrip_keeps; assumption.
Qed.

Lemma parse_digits_letter (l : list ascii) (c : ascii) :
  In c l -> is_ascii_letter c = true ->
  forall acc after_digit, parse_digits l acc after_digit = None.
Proof.
  intros Hin Hc. destruct (ascii_letter_facts c Hc) as (_ & Hd & Hu & _).
  induction l as [|x r IH]; intros acc after_digit; [destruct Hin|].
  simpl. destruct Hin as [-> | Hin].
  - rewrite Hu, Hd. reflexivity.
  - destruct (Ascii.eqb x "_").
    + destruct after_digit; [apply IH; exact Hin | reflexivity].
    + destruct (digit_of x); [apply IH; exact Hin | reflexivity].
Qed.

(** A value with an ASCII letter in it is no integer literal. *)
Lemma py_int_letter (s : string) (c : ascii) :
  In c (list_ascii_of_string s) -> is_ascii_letter c = true -> py_int s = None.
Proof.
  intros Hin Hc.
  destruct (ascii_letter_facts c Hc) as (Hsp & _ & _ & Hminus & Hplus & Hlow).
  unfold py_int.
  destruct (utf8_decode (list_ascii_of_string s)) as [cps|] eqn:Hdec; [|reflexivity].
  destruct (ascii_forms cps) as [l|] eqn:Hforms; [|reflexivity].
  assert (In c (strip l)) as Hstrip.
  { apply strip_keeps; [|exact Hsp].
    apply (ascii_forms_keeps_low cps l c Hforms); [|exact Hlow].
    apply (utf8_decode_keeps_ascii _ _ cps c (Nat.le_refl _) Hdec Hin).
    apply N.ltb_lt. apply N.ltb_lt in Hlow. lia. }
  destruct (strip l) as [|c0 r]; [reflexivity|].
  cbv zeta.
  assert (parse_digits (if (Ascii.eqb c0 "-" || Ascii.eqb c0 "+")%bool then r else c0 :: r)
                       0 false = None) as Hparse.
  { apply (parse_digits_letter _ c); [|exact Hc].
    destruct (Ascii.eqb c0 "-" || Ascii.eqb c0 "+")%bool eqn:Hsign; [|exact Hstrip].
    destruct Hstrip as [-> | Hr]; [|exact Hr].
    rewrite Hminus, Hplus in Hsign. discriminate. }
  rewrite Hparse.
  destruct (_ <? _)%nat; [reflexivity|].
  destruct (Ascii.eqb c0 "-"); reflexivity.
Qed.

Lemma lower_ascii_is (a : ascii) :
  Ascii.eqb (lower_ascii a) "t" = (Ascii.eqb a "t" || Ascii.eqb a "T")%bool
  /\ Ascii.eqb (lower_ascii a) "r" = (Ascii.eqb a "r" || Ascii.eqb a "R")%bool
  /\ Ascii.eqb (lower_ascii a) "u" = (Ascii.eqb a "u" || Ascii.eqb a "U")%bool
  /\ Ascii.eqb (lower_ascii a) "e" = (Ascii.eqb a "e" || Ascii.eqb a "E")%bool.
Proof. destruct a as [[] [] [] [] [] [] [] []]; repeat split; reflexivity. Qed.

Lemma lower_is_true (s : string) :
  String.eqb (lower s) "true" = spells_true s.
Proof.
  destruct s as [|a [|b [|c [|d [|e s]]]]]; simpl; try reflexivity.
  - destruct (Ascii.eqb (lower_ascii a) "t"); reflexivity.
  - destruct (Ascii.eqb (lower_ascii a) "t"); [|reflexivity].
    destruct (Ascii.eqb (lower_ascii b) "r"); reflexivity.
  - destruct (Ascii.eqb (lower_ascii a) "t"); [|reflexivity].
    destruct (Ascii.eqb (lower_ascii b) "r"); [|reflexivity].
    destruct (Ascii.eqb (lower_ascii c) "u"); reflexivity.
  - destruct (lower_ascii_is a) as (-> & _).
    destruct (lower_ascii_is b) as (_ & -> & _).
    destruct (lower_ascii_is c) as (_ & _ & -> & _).
    destruct (lower_ascii_is d) as (_ & _ & _ & ->).
    destruct (Ascii.eqb a "t" || Ascii.eqb a "T")%bool; [|reflexivity].
    destruct (Ascii.eqb b "r" || Ascii.eqb b "R")%bool; [|reflexivity].
    destruct (Ascii.eqb c "u" || Ascii.eqb c "U")%bool; [|reflexivity].
    simpl. destruct (Ascii.eqb d "e" || Ascii.eqb d "E")%bool; reflexivity.
  - destruct (Ascii.eqb (lower_ascii a) "t"); [|reflexivity].
    destruct (Ascii.eqb (lower_ascii b) "r"); [|reflexivity].
    destruct (Ascii.eqb (lower_ascii c) "u"); [|reflexivity].
    destruct (Ascii.eqb (lower_ascii d) "e"); reflexivity.
Qed.

(** When [LOCUST_USERS] or [LOCUST_SPAWN_RATE] is set to a value with an
    ASCII letter in it ("ten", "5m"), [config] raises [ValueError]
    whatever else is set.  When the two are unset, the configuration
    has 10 users and spawn rate 2, its host and run time are the values
    of [LOCUST_HOST] and [LOCUST_RUN_TIME] as they are (the defaults
    when unset), and headless is true exactly when [LOCUST_HEADLESS] is
    set to "true" in any mix of upper and lower case. *)
Theorem config_reads_set_variables (environ : gmap string string) :
  (forall key s c,
      key = "LOCUST_USERS" \/ key = "LOCUST_SPAWN_RATE" ->
      environ !! key = Some s ->
      In c (list_ascii_of_string s) -> is_ascii_letter c = true ->
      config environ = Raise ValueError)
  /\ (environ !! "LOCUST_USERS" = None ->
      environ !! "LOCUST_SPAWN_RATE" = None ->
      config environ
      = Ret (mkConfig
               (match environ !! "LOCUST_HOST" with
                | Some h => h
                | None => "http://localhost:3000"
                end)
               10 2
               (match environ !! "LOCUST_RUN_TIME" with
                | Some t => t
                | None => "5m"
                end)
               (match environ !! "LOCUST_HEADLESS" with
                | Some v => spells_true v
                | None => false
                end))).
Proof.
  split.
  - intros key s c Hkey Hset Hin Hc.
    pose proof (py_int_letter s c Hin Hc) as Hint.
    unfold config, getenv. destruct Hkey as [-> | ->]; rewrite Hset, Hint.
    + reflexivity.
    + match goal with |- match ?x with _ => _ end = _ => destruct x end; reflexivity.
  - intros Husers Hrate. unfold config, getenv. rewrite Husers, Hrate.
    change (py_int "10") with (Some 10). change (py_int "2") with (Some 2).
    cbv iota zeta. rewrite lower_is_true.
    destruct (environ !! "LOCUST_HOST"), (environ !! "LOCUST_RUN_TIME"),
      (environ !! "LOCUST_HEADLESS"); reflexivity.
Qed.

Lemma config_reads_set_variables_witness :
  config (<["LOCUST_SPAWN_RATE" := "2/s"]> (<["LOCUST_HEADLESS" := "True"]> ∅))
  = Raise ValueError
  /\ config (<["LOCUST_HOST" := "https://api.example"]>
               (<["LOCUST_HEADLESS" := "True"]> ∅))
     = Ret (mkConfig "https://api.example" 10 2 "5m" true).
Proof.
  split.
  - apply (proj1 (config_reads_set_variables
                    (<["LOCUST_SPAWN_RATE" := "2/s"]> (<["LOCUST_HEADLESS" := "True"]> ∅)))
                 "LOCUST_SPAWN_RATE" "2/s" "s"%char).
    + right. reflexivity.
    + reflexivity.
    + simpl. auto.
    + reflexivity.
  - etransitivity.
    + apply (proj2 (config_reads_set_variables
                      (<["LOCUST_HOST" := "https://api.example"]>
                         (<["LOCUST_HEADLESS" := "True"]> ∅)))); reflexivity.
    + reflexivity.
Defined.
